(** * Boombox design system: token getters and the button variant resolver

    A shallow embedding of the token modules
    ([packages/tokens/src/base/*.ts]: the token trees, their getters and
    utility objects) and of the button variant resolver
    ([packages/components/src/primitives/Button/variants.ts]) with the
    [Button] that calls it.

    The TypeScript sources are evaluated by a JavaScript engine, so the
    embedding starts with the fragment of the JavaScript object model the
    sources rely on: property lookup through the prototype chain, [typeof],
    truthiness, string conversion in template literals, and the handful of
    [String]/[Array] methods used while the token modules are loaded. *)

From Stdlib Require Import String Ascii List ZArith Bool Lia DecimalString.
From Stdlib Require Import DecimalNat DecimalPos DecimalZ.
Import ListNotations.
Open Scope string_scope.

(** ** The JavaScript fragment *)

Module JS.

(** Values.  Strings are sequences of 8-bit characters (the token data is
    ASCII); the numbers stored in the token trees are integers. *)
#[warnings="-register-all"]
Inductive value : Type :=
| VUndefined
| VNull
| VString (s : string)
| VNumber (n : Z)
| VObject (props : list (string * value))  (* object literal, own properties in source order *)
| VArray (elems : list value)              (* array literal *)
| VFunction (name : string)                (* a built-in function object *)
| VObjectPrototype                         (* %Object.prototype% *)
| VArrayPrototype.                         (* %Array.prototype% *)

Arguments VNumber n%_Z.

(** What a [throw] carries: [new Error(message)], or the engine's own
    [TypeError] (its message is engine specific and is not modelled). *)
Inductive exn : Type :=
| Error (message : string)
| TypeError.

Inductive completion (A : Type) : Type :=
| Normal (a : A)
| Throw (e : exn).

Arguments Normal {A} a.
Arguments Throw {A} e.

Definition bind {A B} (c : completion A) (k : A -> completion B) : completion B :=
  match c with
  | Normal a => k a
  | Throw e => Throw e
  end.

Definition dquote : string := String (ascii_of_nat 34) EmptyString.

(** [typeof v] *)
Definition typeof (v : value) : string :=
  match v with
  | VUndefined => "undefined"
  | VNull => "object"
  | VString _ => "string"
  | VNumber _ => "number"
  | VFunction _ => "function"
  | VObject _ | VArray _ | VObjectPrototype | VArrayPrototype => "object"
  end.

(** ToBoolean *)
Definition truthy (v : value) : bool :=
  match v with
  | VUndefined | VNull => false
  | VString s => negb (s =? EmptyString)
  | VNumber n => negb (n =? 0)%Z
  | _ => true
  end.

(** [a || b] *)
Definition or_else (a b : value) : value := if truthy a then a else b.

Definition string_of_nat (n : nat) : string := NilZero.string_of_uint (Nat.to_uint n).
Definition string_of_Z (n : Z) : string := NilZero.string_of_int (Z.to_int n).

(** The text of a built-in function ([Function.prototype.toString]); the
    standard fixes the shape, the spacing is the one V8 prints. *)
Definition native_function_source (name : string) : string :=
  "function " ++ name ++ "() { [native code] }".

(** ToString, as applied by template literals, [Array.prototype.join] and
    computed property keys.  It is exact on strings, on the integers a
    number prints in plain decimal (below 10^21 in absolute value), on
    [undefined], [null], the built-in functions and prototypes, and on the
    object and array literals that declare no [toString] or [valueOf] of
    their own, which is what the token trees and the fragment tables
    hold.  An object that overrides [toString] or [valueOf] is outside it:
    there the engine calls the override, or throws a [TypeError] when
    neither is callable. *)
Fixpoint to_string (v : value) : string :=
  match v with
  | VUndefined => "undefined"
  | VNull => "null"
  | VString s => s
  | VNumber n => string_of_Z n
  | VObject _ | VObjectPrototype => "[object Object]"
  | VArray elems =>
      String.concat ","
        (map (fun e => match e with
                       | VUndefined | VNull => EmptyString
                       | _ => to_string e
                       end) elems)
  | VArrayPrototype => EmptyString
  | VFunction name => native_function_source name
  end.

(** A template literal: the pieces, literal text included, are converted
    and concatenated. *)
Definition template_string (parts : list value) : string :=
  String.concat EmptyString (map to_string parts).

Definition template (parts : list value) : value := VString (template_string parts).

(** *** Properties *)

Fixpoint assoc (key : string) (props : list (string * value)) : option value :=
  match props with
  | [] => None
  | (k, v) :: rest => if k =? key then Some v else assoc key rest
  end.

(** The function-valued own properties of [Object.prototype]. *)
Definition object_prototype_methods : list (string * value) :=
  ("constructor", VFunction "Object") ::
  map (fun n => (n, VFunction n))
    ["__defineGetter__"; "__defineSetter__"; "hasOwnProperty";
     "__lookupGetter__"; "__lookupSetter__"; "isPrototypeOf";
     "propertyIsEnumerable"; "toString"; "valueOf"; "toLocaleString"].

(** The function-valued own properties of [Array.prototype] (ECMAScript 2023). *)
Definition array_prototype_methods : list (string * value) :=
  ("constructor", VFunction "Array") ::
  map (fun n => (n, VFunction n))
    ["at"; "concat"; "copyWithin"; "fill"; "find"; "findIndex"; "findLast";
     "findLastIndex"; "lastIndexOf"; "pop"; "push"; "reverse"; "shift";
     "unshift"; "slice"; "sort"; "splice"; "includes"; "indexOf"; "join";
     "keys"; "entries"; "values"; "forEach"; "filter"; "flat"; "flatMap";
     "map"; "every"; "some"; "reduce"; "reduceRight"; "toLocaleString";
     "toString"; "toReversed"; "toSorted"; "toSpliced"; "with"].

(** The index an array key denotes, if it is the canonical decimal form of
    a number below [len]. *)
Definition array_index (key : string) (len : nat) : option nat :=
  find (fun i => string_of_nat i =? key) (seq 0 len).

(** Own data properties of an object. *)
Definition own_property (v : value) (key : string) : option value :=
  match v with
  | VObject props => assoc key props
  | VArray elems =>
      if key =? "length" then Some (VNumber (Z.of_nat (length elems)))
      else match array_index key (length elems) with
           | Some i => nth_error elems i
           | None => None
           end
  | VObjectPrototype => assoc key object_prototype_methods
  | VArrayPrototype =>
      if key =? "length" then Some (VNumber 0)
      else assoc key array_prototype_methods
  | _ => None
  end.

(** An object followed by its prototypes. *)
Definition prototype_chain (v : value) : list value :=
  match v with
  | VObject _ => [v; VObjectPrototype]
  | VArray _ => [v; VArrayPrototype; VObjectPrototype]
  | VArrayPrototype => [v; VObjectPrototype]
  | VObjectPrototype => [v]
  | _ => []
  end.

Definition get_prototype_of (v : value) : value :=
  match prototype_chain v with
  | _ :: p :: _ => p
  | _ => VNull
  end.

Fixpoint find_property (chain : list value) (key : string) : option value :=
  match chain with
  | [] => None
  | o :: rest =>
      match own_property o key with
      | Some x => Some x
      | None => find_property rest key
      end
  end.

Definition is_object (v : value) : bool :=
  match prototype_chain v with
  | [] => false
  | _ => true
  end.

(** [key in v], for an object [v]: own and inherited properties, and the
    [__proto__] accessor every object inherits from [Object.prototype]. *)
Definition has_property (v : value) (key : string) : bool :=
  match find_property (prototype_chain v) key with
  | Some _ => true
  | None => is_object v && (key =? "__proto__")
  end.

(** [v[key]], for an object [v].  The primitives and functions, whose
    properties are not modelled, read as [undefined]. *)
Definition get_property (v : value) (key : string) : value :=
  match find_property (prototype_chain v) key with
  | Some x => x
  | None =>
      if is_object v && (key =? "__proto__") then get_prototype_of v
      else VUndefined
  end.

(** [root.k1.k2...] *)
Definition member (root : value) (keys : list string) : value :=
  fold_left get_property keys root.

(** *** Strings and arrays *)

(** [s.split(sep)] for a one-character separator. *)
Fixpoint split (sep : ascii) (s : string) : list string :=
  match s with
  | EmptyString => [EmptyString]
  | String c rest =>
      if Ascii.eqb c sep then EmptyString :: split sep rest
      else match split sep rest with
           | [] => [String c EmptyString]
           | h :: t => String c h :: t
           end
  end.

Fixpoint drop (n : nat) (s : string) : string :=
  match n, s with
  | S n', String _ rest => drop n' rest
  | _, _ => s
  end.

(** [s.replace(pattern, replacement)] for a string pattern: the first
    occurrence only. *)
Fixpoint String_replace (pattern replacement s : string) : string :=
  if String.prefix pattern s then replacement ++ drop (String.length pattern) s
  else match s with
       | EmptyString => EmptyString
       | String c rest => String c (String_replace pattern replacement rest)
       end.

(** [.] in a regular expression matches anything but a line terminator. *)
Definition line_terminator (c : ascii) : bool :=
  Ascii.eqb c (ascii_of_nat 10) || Ascii.eqb c (ascii_of_nat 13).

(** The successive matches of [/.{2}/g]. *)
Fixpoint match_pairs (s : string) : list string :=
  match s with
  | String a ((String b rest') as rest) =>
      if line_terminator a || line_terminator b then match_pairs rest
      else String a (String b EmptyString) :: match_pairs rest'
  | _ => []
  end.

(** [s.match(/.{2}/g)]: [null] ([None]) when nothing matches. *)
Definition String_match_pairs (s : string) : option (list string) :=
  match match_pairs s with
  | [] => None
  | ms => Some ms
  end.

Definition white_space (c : ascii) : bool :=
  let n := nat_of_ascii c in
  ((9 <=? n) && (n <=? 13))%nat || (n =? 32)%nat.

Fixpoint trim_start (s : string) : string :=
  match s with
  | String c rest => if white_space c then trim_start rest else s
  | EmptyString => s
  end.

Definition hex_digit (c : ascii) : option Z :=
  let n := Z.of_nat (nat_of_ascii c) in
  if ((48 <=? n) && (n <=? 57))%Z then Some (n - 48)%Z
  else if ((97 <=? n) && (n <=? 102))%Z then Some (n - 87)%Z
  else if ((65 <=? n) && (n <=? 70))%Z then Some (n - 55)%Z
  else None.

(** The value of the longest prefix of hexadecimal digits; [None] when it
    is empty. *)
Fixpoint hex_prefix (acc : option Z) (s : string) : option Z :=
  match s with
  | EmptyString => acc
  | String c rest =>
      match hex_digit c with
      | Some d =>
          hex_prefix (Some (16 * match acc with Some a => a | None => 0 end + d)%Z) rest
      | None => acc
      end
  end.

(** Numbers that [parseInt] produces: [None] is [NaN]. *)
Definition number := option Z.

(** [parseInt(s, 16)]: leading white space is skipped, then an optional
    sign and an optional [0x] or [0X], then the digits. *)
Definition parseInt16 (s : string) : number :=
  let s1 := trim_start s in
  let '(sign, s2) :=
    match s1 with
    | String c rest =>
        if Ascii.eqb c "-" then ((-1)%Z, rest)
        else if Ascii.eqb c "+" then (1%Z, rest)
        else (1%Z, s1)
    | EmptyString => (1%Z, s1)
    end in
  let s3 :=
    match s2 with
    | String c0 (String c1 rest) =>
        if Ascii.eqb c0 "0" && (Ascii.eqb c1 "x" || Ascii.eqb c1 "X") then rest
        else s2
    | _ => s2
    end in
  match hex_prefix None s3 with
  | Some n => Some (sign * n)%Z
  | None => None
  end.

Definition number_to_string (n : number) : string :=
  match n with
  | Some z => string_of_Z z
  | None => "NaN"
  end.

End JS.

Import JS.

(** ** Token trees

    The [export const ... = { ... } as const] object literals of the token
    modules.  [as const] only narrows the static types: at run time they are
    ordinary objects whose prototype is [Object.prototype]. *)

(** [c.replace('#', '').match(/.{2}/g)?.map(hex => parseInt(hex, 16)).join(' ')],
    the expression the shadow module interpolates into its colored shadows.
    The receivers are string tokens of [colors]; [?.] yields [undefined]
    when [match] returns [null]. *)
Definition hexChannels (c : value) : value :=
  match c with
  | VString s =>
      match String_match_pairs (String_replace "#" EmptyString s) with
      | Some ms =>
          VString (String.concat " "
                     (map (fun hex => number_to_string (parseInt16 hex)) ms))
      | None => VUndefined
      end
  | _ => VUndefined
  end.

(** [colors], from [packages/tokens/src/base/colors.ts]. *)
Definition colors : value :=
  VObject [
    ("primary", VObject [
      ("50", VString "#fafafa");
      ("100", VString "#f4f4f5");
      ("400", VString "#a1a1aa");
      ("500", VString "#71717a");
      ("700", VString "#404040");
      ("800", VString "#2d2d2d");
      ("950", VString "#222222") ]);
    ("secondary", VObject [
      ("50", VString "#f8fafc");
      ("100", VString "#f1f5f9");
      ("200", VString "#e2e8f0");
      ("400", VString "#94a3b8");
      ("500", VString "#64748b") ]);
    ("semantic", VObject [
      ("success", VObject [
        ("100", VString "#d1fae5");
        ("200", VString "#a7f3d0");
        ("500", VString "#10b981");
        ("600", VString "#059669");
        ("700", VString "#047857") ]);
      ("error", VObject [
        ("50", VString "#fef2f2");
        ("100", VString "#fee2e2");
        ("200", VString "#fecaca");
        ("500", VString "#ef4444");
        ("600", VString "#dc2626");
        ("700", VString "#b91c1c") ]);
      ("warning", VObject [
        ("50", VString "#fffbeb");
        ("100", VString "#fef3c7");
        ("200", VString "#fde68a");
        ("400", VString "#fbbf24");
        ("500", VString "#f59e0b") ]);
      ("info", VObject [
        ("100", VString "#cffafe");
        ("200", VString "#a5f3fc");
        ("500", VString "#06b6d4");
        ("600", VString "#0891b2") ]) ]) ].

(** [breakpoints], from the breakpoint token module. *)
Definition breakpoints : value :=
  VObject [
    ("screens", VObject [
      ("sm", VString "640px");
      ("md", VString "768px");
      ("lg", VString "1024px");
      ("xl", VString "1280px");
      ("2xl", VString "1536px") ]);
    ("containers", VObject [
      ("sm", VString "640px");
      ("md", VString "768px");
      ("lg", VString "1024px");
      ("xl", VString "1280px");
      ("2xl", VString "1536px");
      ("content", VObject [
        ("xs", VString "320px");
        ("sm", VString "384px");
        ("md", VString "448px");
        ("lg", VString "512px");
        ("xl", VString "576px");
        ("2xl", VString "672px");
        ("3xl", VString "768px");
        ("4xl", VString "896px");
        ("5xl", VString "1024px") ]) ]);
    ("grid", VObject [
      ("columns", VObject [
        ("mobile", VNumber 1);
        ("tablet", VNumber 2);
        ("desktop", VNumber 3);
        ("wide", VNumber 4) ]);
      ("patterns", VObject [
        ("standard", VObject [("base", VNumber 1); ("lg", VNumber 2); ("2xl", VNumber 3)]);
        ("admin", VObject [("base", VNumber 2); ("md", VNumber 4)]);
        ("features", VObject [("base", VNumber 1); ("sm", VNumber 2)]);
        ("coverage", VObject [("base", VNumber 2); ("sm", VNumber 3); ("lg", VNumber 4)]) ]) ]);
    ("typography", VObject [
      ("headings", VObject [
        ("hero", VObject [("base", VString "3rem"); ("sm", VString "3.75rem")]);
        ("section", VObject [("base", VString "1.5rem"); ("sm", VString "2.25rem")]);
        ("subsection", VObject [("base", VString "1.25rem"); ("sm", VString "1.5rem")]) ]);
      ("body", VObject [
        ("default", VObject [("base", VString "0.875rem"); ("sm", VString "1rem")]);
        ("large", VObject [("base", VString "1rem"); ("sm", VString "1.125rem")]) ]) ]);
    ("spacing", VObject [
      ("container", VObject [
        ("standard", VObject [("base", VString "1.5rem"); ("lg", VString "4rem")]);
        ("admin", VObject [("base", VString "1rem"); ("sm", VString "1.5rem"); ("lg", VString "2rem")]);
        ("compact", VObject [("base", VString "1rem"); ("sm", VString "1.5rem")]) ]);
      ("section", VObject [
        ("bottom", VObject [("base", VString "6rem"); ("sm", VString "12rem")]);
        ("top", VObject [("base", VString "3rem"); ("sm", VString "6rem")]);
        ("combined", VObject [("base", VString "3rem"); ("sm", VString "6rem")]) ]);
      ("gap", VObject [
        ("standard", VObject [("base", VString "1rem"); ("lg", VString "1.5rem")]);
        ("small", VObject [("base", VString "0.5rem"); ("sm", VString "1rem")]);
        ("large", VObject [("base", VString "1.5rem"); ("lg", VString "2rem")]) ]) ]);
    ("layout", VObject [
      ("direction", VObject [
        ("standard", VObject [("base", VString "column"); ("sm", VString "row")]);
        ("reverse", VObject [("base", VString "row"); ("sm", VString "column")]) ]);
      ("visibility", VObject [
        ("desktop", VObject [("base", VString "hidden"); ("sm", VString "flex")]);
        ("mobile", VObject [("base", VString "block"); ("sm", VString "hidden")]);
        ("responsive", VObject [("base", VString "hidden"); ("md", VString "block")]) ]);
      ("basis", VObject [
        ("half", VObject [("base", VString "100%"); ("md", VString "50%")]);
        ("third", VObject [("base", VString "100%"); ("lg", VString "33.333333%")]);
        ("quarter", VObject [("base", VString "100%"); ("xl", VString "25%")]) ]) ]);
    ("navigation", VObject [
      ("mobile", VObject [
        ("hamburger", VObject [("show", VString "0px"); ("hide", VString "768px")]);
        ("overlay", VObject [("show", VString "0px"); ("hide", VString "1024px")]) ]);
      ("desktop", VObject [
        ("main", VObject [("show", VString "768px"); ("hide", VString "0px")]);
        ("secondary", VObject [("show", VString "1024px"); ("hide", VString "0px")]) ]);
      ("container", VObject [
        ("header", VObject [("base", VString "1.5rem"); ("lg", VString "4rem")]);
        ("height", VObject [("mobile", VString "4rem"); ("desktop", VString "5rem")]) ]) ]);
    ("components", VObject [
      ("button", VObject [
        ("padding", VObject [
          ("base", VObject [("y", VString "0.625rem"); ("x", VString "1.5rem")]);
          ("sm", VObject [("y", VString "0.75rem"); ("x", VString "2rem")]) ]);
        ("text", VObject [("base", VString "0.875rem"); ("sm", VString "1rem")]) ]);
      ("card", VObject [
        ("padding", VObject [("base", VString "1rem"); ("sm", VString "1.5rem"); ("lg", VString "2rem")]);
        ("gap", VObject [("base", VString "1rem"); ("sm", VString "1.5rem")]) ]);
      ("form", VObject [
        ("container", VObject [("base", VString "32rem"); ("sm", VString "42rem")]);
        ("padding", VObject [("base", VString "1.5rem"); ("sm", VString "2.5rem")]) ]);
      ("modal", VObject [
        ("width", VObject [("base", VString "100%"); ("sm", VString "28rem"); ("lg", VString "32rem")]);
        ("padding", VObject [("base", VString "1rem"); ("sm", VString "1.5rem")]) ]) ]);
    ("utilities", VObject [
      ("show", VObject [
        ("mobile", VObject [("base", VString "block"); ("sm", VString "hidden")]);
        ("tablet", VObject [("base", VString "hidden"); ("sm", VString "block"); ("lg", VString "hidden")]);
        ("desktop", VObject [("base", VString "hidden"); ("lg", VString "block")]) ]);
      ("textAlign", VObject [
        ("center", VObject [("base", VString "center"); ("sm", VString "left")]);
        ("responsive", VObject [("base", VString "left"); ("sm", VString "center"); ("lg", VString "left")]) ]);
      ("margin", VObject [
        ("section", VObject [("base", VString "3rem"); ("sm", VString "6rem")]);
        ("component", VObject [("base", VString "1rem"); ("sm", VString "2rem")]) ]);
      ("padding", VObject [
        ("container", VObject [("base", VString "1.5rem"); ("lg", VString "4rem")]);
        ("section", VObject [("base", VString "2rem"); ("sm", VString "3rem")]) ]) ]) ].

(** [shadows], from [packages/tokens/src/base/shadows.ts]. *)
Definition shadows : value :=
  VObject [
    ("elevation", VObject [
      ("none", VString "none");
      ("xs", VString "0 1px 2px 0 rgb(0 0 0 / 0.05)");
      ("sm", VString "0 1px 3px 0 rgb(0 0 0 / 0.1), 0 1px 2px 0 rgb(0 0 0 / 0.06)");
      ("md", VString "0 4px 6px -1px rgb(0 0 0 / 0.1), 0 2px 4px -1px rgb(0 0 0 / 0.06)");
      ("lg", VString "0 10px 15px -3px rgb(0 0 0 / 0.1), 0 4px 6px -2px rgb(0 0 0 / 0.05)");
      ("xl", VString "0 20px 25px -5px rgb(0 0 0 / 0.1), 0 10px 10px -5px rgb(0 0 0 / 0.04)");
      ("2xl", VString "0 25px 50px -12px rgb(0 0 0 / 0.25)");
      ("custom", VString "0px 6px 20px 0px rgba(0, 0, 0, 0.2)") ]);
    ("colors", VObject [
      ("default", VString "rgb(0 0 0 / 0.1)");
      ("subtle", VString "rgb(0 0 0 / 0.05)");
      ("strong", VString "rgb(0 0 0 / 0.25)");
      ("primary", template [VString "rgb("; hexChannels (member colors ["primary"; "950"]); VString " / 0.1)"]);
      ("secondary", template [VString "rgb("; hexChannels (member colors ["secondary"; "500"]); VString " / 0.1)"]);
      ("success", template [VString "rgb("; hexChannels (member colors ["semantic"; "success"; "500"]); VString " / 0.2)"]);
      ("error", template [VString "rgb("; hexChannels (member colors ["semantic"; "error"; "500"]); VString " / 0.2)"]);
      ("warning", template [VString "rgb("; hexChannels (member colors ["semantic"; "warning"; "500"]); VString " / 0.2)"]);
      ("info", template [VString "rgb("; hexChannels (member colors ["semantic"; "info"; "500"]); VString " / 0.2)"]);
      ("email", VObject [
        ("button", VString "rgba(79, 70, 229, 0.3)");
        ("card", VString "rgba(0, 0, 0, 0.1)") ]) ]);
    ("interactive", VObject [
      ("hover", VObject [
        ("subtle", VString "0 4px 6px -1px rgb(0 0 0 / 0.1), 0 2px 4px -1px rgb(0 0 0 / 0.06)");
        ("moderate", VString "0 10px 15px -3px rgb(0 0 0 / 0.1), 0 4px 6px -2px rgb(0 0 0 / 0.05)");
        ("strong", VString "0 20px 25px -5px rgb(0 0 0 / 0.1), 0 10px 10px -5px rgb(0 0 0 / 0.04)") ]);
      ("focus", VObject [
        ("default", template [VString "0 0 0 3px rgb("; hexChannels (member colors ["primary"; "950"]); VString " / 0.1)"]);
        ("error", template [VString "0 0 0 3px rgb("; hexChannels (member colors ["semantic"; "error"; "500"]); VString " / 0.1)"]);
        ("success", template [VString "0 0 0 3px rgb("; hexChannels (member colors ["semantic"; "success"; "500"]); VString " / 0.1)"]) ]);
      ("active", VObject [
        ("pressed", VString "0 1px 2px 0 rgb(0 0 0 / 0.05)");
        ("selected", VString "0 0 0 2px rgb(0 0 0 / 0.1)") ]);
      ("disabled", VObject [("shadow", VString "0 1px 2px 0 rgb(0 0 0 / 0.05)"); ("opacity", VString "0.5")]) ]);
    ("semantic", VObject [
      ("success", VObject [
        ("subtle", template [VString "0 1px 3px 0 rgb("; hexChannels (member colors ["semantic"; "success"; "500"]); VString " / 0.1)"]);
        ("moderate", template [VString "0 4px 6px -1px rgb("; hexChannels (member colors ["semantic"; "success"; "500"]); VString " / 0.1)"]);
        ("strong", template [VString "0 10px 15px -3px rgb("; hexChannels (member colors ["semantic"; "success"; "500"]); VString " / 0.2)"]) ]);
      ("error", VObject [
        ("subtle", template [VString "0 1px 3px 0 rgb("; hexChannels (member colors ["semantic"; "error"; "500"]); VString " / 0.1)"]);
        ("moderate", template [VString "0 4px 6px -1px rgb("; hexChannels (member colors ["semantic"; "error"; "500"]); VString " / 0.1)"]);
        ("strong", template [VString "0 10px 15px -3px rgb("; hexChannels (member colors ["semantic"; "error"; "500"]); VString " / 0.2)"]) ]);
      ("warning", VObject [
        ("subtle", template [VString "0 1px 3px 0 rgb("; hexChannels (member colors ["semantic"; "warning"; "500"]); VString " / 0.1)"]);
        ("moderate", template [VString "0 4px 6px -1px rgb("; hexChannels (member colors ["semantic"; "warning"; "500"]); VString " / 0.1)"]);
        ("strong", template [VString "0 10px 15px -3px rgb("; hexChannels (member colors ["semantic"; "warning"; "500"]); VString " / 0.2)"]) ]);
      ("info", VObject [
        ("subtle", template [VString "0 1px 3px 0 rgb("; hexChannels (member colors ["semantic"; "info"; "500"]); VString " / 0.1)"]);
        ("moderate", template [VString "0 4px 6px -1px rgb("; hexChannels (member colors ["semantic"; "info"; "500"]); VString " / 0.1)"]);
        ("strong", template [VString "0 10px 15px -3px rgb("; hexChannels (member colors ["semantic"; "info"; "500"]); VString " / 0.2)"]) ]) ]);
    ("components", VObject [
      ("card", VObject [
        ("skeleton", VString "0 1px 3px 0 rgb(0 0 0 / 0.1), 0 1px 2px 0 rgb(0 0 0 / 0.06)");
        ("default", VString "0px 6px 20px 0px rgba(0, 0, 0, 0.2)");
        ("interactive", VObject [
          ("default", VString "0px 6px 20px 0px rgba(0, 0, 0, 0.2)");
          ("hover", VString "0 10px 15px -3px rgb(0 0 0 / 0.1), 0 4px 6px -2px rgb(0 0 0 / 0.05)") ]);
        ("elevated", VString "0 20px 25px -5px rgb(0 0 0 / 0.1), 0 10px 10px -5px rgb(0 0 0 / 0.04)") ]);
      ("button", VObject [
        ("primary", VString "none");
        ("secondary", VString "0 1px 3px 0 rgb(0 0 0 / 0.1), 0 1px 2px 0 rgb(0 0 0 / 0.06)");
        ("outline", VString "0 1px 3px 0 rgb(0 0 0 / 0.1), 0 1px 2px 0 rgb(0 0 0 / 0.06)");
        ("floating", VString "0px 6px 20px 0px rgba(0, 0, 0, 0.2)");
        ("hover", VObject [
          ("secondary", VString "0 4px 6px -1px rgb(0 0 0 / 0.1), 0 2px 4px -1px rgb(0 0 0 / 0.06)");
          ("outline", VString "0 4px 6px -1px rgb(0 0 0 / 0.1), 0 2px 4px -1px rgb(0 0 0 / 0.06)") ]) ]);
      ("modal", VObject [
        ("default", VString "0 20px 25px -5px rgb(0 0 0 / 0.1), 0 10px 10px -5px rgb(0 0 0 / 0.04)");
        ("large", VString "0 25px 50px -12px rgb(0 0 0 / 0.25)");
        ("backdrop", VString "rgba(0, 0, 0, 0.5)") ]);
      ("dropdown", VObject [
        ("default", VString "0px 6px 20px 0px rgba(0, 0, 0, 0.2)");
        ("admin", VString "0 10px 15px -3px rgb(0 0 0 / 0.1), 0 4px 6px -2px rgb(0 0 0 / 0.05)");
        ("select", VString "0 10px 15px -3px rgb(0 0 0 / 0.1), 0 4px 6px -2px rgb(0 0 0 / 0.05)") ]);
      ("navigation", VObject [
        ("header", VString "0 1px 3px 0 rgb(0 0 0 / 0.1), 0 1px 2px 0 rgb(0 0 0 / 0.06)");
        ("mobile", VString "0 10px 15px -3px rgb(0 0 0 / 0.1), 0 4px 6px -2px rgb(0 0 0 / 0.05)");
        ("popover", VString "0px 6px 20px 0px rgba(0, 0, 0, 0.2)") ]);
      ("form", VObject [
        ("input", VString "none");
        ("inputFocus", template [VString "0 0 0 2px rgb("; hexChannels (member colors ["primary"; "950"]); VString " / 0.1)"]);
        ("inputError", template [VString "0 0 0 2px rgb("; hexChannels (member colors ["semantic"; "error"; "500"]); VString " / 0.1)"]);
        ("container", VString "0px 6px 20px 0px rgba(0, 0, 0, 0.2)") ]);
      ("tooltip", VObject [
        ("default", VString "0px 6px 20px 0px rgba(0, 0, 0, 0.2)");
        ("subtle", VString "0 4px 6px -1px rgb(0 0 0 / 0.1), 0 2px 4px -1px rgb(0 0 0 / 0.06)") ]);
      ("loading", VObject [
        ("skeleton", VString "0 1px 3px 0 rgb(0 0 0 / 0.1), 0 1px 2px 0 rgb(0 0 0 / 0.06)");
        ("spinner", VString "none") ]) ]);
    ("special", VObject [
      ("inner", VObject [
        ("subtle", VString "inset 0 1px 2px 0 rgb(0 0 0 / 0.05)");
        ("moderate", VString "inset 0 2px 4px 0 rgb(0 0 0 / 0.1)");
        ("strong", VString "inset 0 4px 8px 0 rgb(0 0 0 / 0.15)") ]);
      ("glow", VObject [
        ("primary", template [VString "0 0 20px rgb("; hexChannels (member colors ["primary"; "950"]); VString " / 0.3)"]);
        ("success", template [VString "0 0 20px rgb("; hexChannels (member colors ["semantic"; "success"; "500"]); VString " / 0.3)"]);
        ("error", template [VString "0 0 20px rgb("; hexChannels (member colors ["semantic"; "error"; "500"]); VString " / 0.3)"]);
        ("warning", template [VString "0 0 20px rgb("; hexChannels (member colors ["semantic"; "warning"; "500"]); VString " / 0.3)"]);
        ("info", template [VString "0 0 20px rgb("; hexChannels (member colors ["semantic"; "info"; "500"]); VString " / 0.3)"]) ]);
      ("layered", VObject [
        ("card", VString "0 1px 3px 0 rgb(0 0 0 / 0.1), 0 1px 2px 0 rgb(0 0 0 / 0.06), 0 0 0 1px rgb(0 0 0 / 0.05)");
        ("modal", VString "0 20px 25px -5px rgb(0 0 0 / 0.1), 0 10px 10px -5px rgb(0 0 0 / 0.04), 0 0 0 1px rgb(0 0 0 / 0.05)") ]);
      ("email", VObject [
        ("button", VString "0 4px 12px rgba(79, 70, 229, 0.3)");
        ("card", VString "0 4px 6px -1px rgba(0, 0, 0, 0.1)");
        ("container", VString "0 2px 4px rgba(0, 0, 0, 0.1)") ]) ]);
    ("utilities", VObject [
      ("none", VString "none");
      ("subtle", VString "0 1px 3px 0 rgb(0 0 0 / 0.1), 0 1px 2px 0 rgb(0 0 0 / 0.06)");
      ("default", VString "0 4px 6px -1px rgb(0 0 0 / 0.1), 0 2px 4px -1px rgb(0 0 0 / 0.06)");
      ("moderate", VString "0 10px 15px -3px rgb(0 0 0 / 0.1), 0 4px 6px -2px rgb(0 0 0 / 0.05)");
      ("strong", VString "0 20px 25px -5px rgb(0 0 0 / 0.1), 0 10px 10px -5px rgb(0 0 0 / 0.04)");
      ("custom", VString "0px 6px 20px 0px rgba(0, 0, 0, 0.2)");
      ("transition", VString "box-shadow 0.15s ease-in-out");
      ("transitionAll", VString "all 0.15s ease-in-out");
      ("ring", template [VString "0 0 0 2px rgb("; hexChannels (member colors ["primary"; "950"]); VString " / 0.1)"]);
      ("ringError", template [VString "0 0 0 2px rgb("; hexChannels (member colors ["semantic"; "error"; "500"]); VString " / 0.1)"]);
      ("ringSuccess", template [VString "0 0 0 2px rgb("; hexChannels (member colors ["semantic"; "success"; "500"]); VString " / 0.1)"]) ]) ].

(** [spacing], from [packages/tokens/src/base/spacing.ts]. *)
Definition spacing : value :=
  VObject [
    ("component", VObject [
      ("xs", VString "0.25rem");
      ("sm", VString "0.5rem");
      ("md", VString "1rem");
      ("lg", VString "1.5rem");
      ("xl", VString "2rem");
      ("2xl", VString "3rem") ]);
    ("layout", VObject [
      ("xs", VString "1rem");
      ("sm", VString "2rem");
      ("md", VString "3rem");
      ("lg", VString "4rem");
      ("xl", VString "6rem");
      ("2xl", VString "12rem") ]);
    ("grid", VObject [
      ("xs", VString "0.25rem");
      ("sm", VString "0.5rem");
      ("md", VString "1rem");
      ("lg", VString "1.5rem");
      ("xl", VString "2rem");
      ("2xl", VString "3rem");
      ("3xl", VString "4rem");
      ("4xl", VString "5rem") ]);
    ("stack", VObject [
      ("xs", VString "0.5rem");
      ("sm", VString "1rem");
      ("md", VString "1.5rem");
      ("lg", VString "2rem") ]);
    ("inline", VObject [("xs", VString "0.5rem"); ("sm", VString "0.75rem"); ("md", VString "1rem")]);
    ("container", VObject [
      ("mobile", VString "1.5rem");
      ("desktop", VString "4rem");
      ("responsive", VObject [
        ("standard", VObject [("base", VString "1.5rem"); ("lg", VString "4rem")]);
        ("admin", VObject [("base", VString "1rem"); ("sm", VString "1.5rem"); ("lg", VString "2rem")]);
        ("compact", VObject [("base", VString "1rem"); ("sm", VString "1.5rem")]) ]) ]);
    ("responsive", VObject [
      ("section", VObject [
        ("bottom", VObject [("base", VString "6rem"); ("sm", VString "12rem")]);
        ("top", VObject [("base", VString "3rem"); ("sm", VString "6rem")]) ]);
      ("gap", VObject [
        ("adaptive", VObject [("base", VString "0.5rem"); ("sm", VString "1rem"); ("lg", VString "1.5rem")]);
        ("standard", VObject [("base", VString "1rem"); ("lg", VString "1.5rem")]) ]) ]) ].

(** [zIndex], from the z-index token module. *)
Definition zIndex : value :=
  VObject [
    ("base", VObject [("behind", VNumber (-1)); ("default", VNumber 0); ("above", VNumber 1)]);
    ("content", VObject [("background", VNumber 0); ("content", VNumber 10); ("foreground", VNumber 20)]);
    ("navigation", VObject [
      ("popover", VNumber 10);
      ("dropdown", VNumber 10);
      ("mobileMenu", VNumber 20);
      ("header", VNumber 30);
      ("adminHeader", VNumber 40) ]);
    ("overlay", VObject [
      ("backdrop", VNumber 40);
      ("drawer", VNumber 50);
      ("modal", VNumber 50);
      ("loading", VNumber 50) ]);
    ("popup", VObject [
      ("dropdown", VNumber 10);
      ("tooltip", VNumber 30);
      ("popover", VNumber 40);
      ("notification", VNumber 50);
      ("contextMenu", VNumber 50) ]);
    ("sticky", VObject [
      ("content", VNumber 30);
      ("header", VNumber 40);
      ("fab", VNumber 50);
      ("navigation", VNumber 50) ]);
    ("maximum", VObject [("loading", VNumber 9999); ("emergency", VNumber 10000)]);
    ("components", VObject [
      ("card", VObject [("default", VNumber 0); ("hover", VNumber 1); ("selected", VNumber 2)]);
      ("form", VObject [
        ("dropdown", VNumber 10);
        ("autocomplete", VNumber 10);
        ("validation", VNumber 20);
        ("overlay", VNumber 50) ]);
      ("navigation", VObject [
        ("popover", VNumber 10);
        ("dropdown", VNumber 10);
        ("mobile", VNumber 20);
        ("header", VNumber 40) ]);
      ("modal", VObject [("backdrop", VNumber 40); ("dialog", VNumber 50); ("loading", VNumber 50)]);
      ("admin", VObject [
        ("sidebar", VNumber 50);
        ("header", VNumber 40);
        ("dropdown", VNumber 10);
        ("modal", VNumber 50) ]);
      ("notification", VObject [("toast", VNumber 50); ("banner", VNumber 30); ("badge", VNumber 20)]) ]);
    ("states", VObject [
      ("hover", VObject [("card", VNumber 1); ("button", VNumber 1); ("interactive", VNumber 2)]);
      ("focus", VObject [("element", VNumber 10); ("modal", VNumber 50)]);
      ("active", VObject [("element", VNumber 2); ("selected", VNumber 5)]);
      ("disabled", VObject [("element", VNumber 0)]) ]);
    ("utilities", VObject [
      ("hide", VNumber (-1));
      ("default", VNumber 0);
      ("raise", VNumber 1);
      ("above", VNumber 10);
      ("nav", VNumber 20);
      ("header", VNumber 40);
      ("overlay", VNumber 50);
      ("max", VNumber 9999) ]) ].

(** [borders], from the border token module. *)
Definition borders : value :=
  VObject [
    ("width", VObject [
      ("none", VString "0");
      ("thin", VString "1px");
      ("medium", VString "2px");
      ("thick", VString "4px") ]);
    ("style", VObject [
      ("solid", VString "solid");
      ("dashed", VString "dashed");
      ("dotted", VString "dotted");
      ("none", VString "none") ]);
    ("radius", VObject [
      ("none", VString "0");
      ("sm", VString "0.125rem");
      ("md", VString "0.375rem");
      ("lg", VString "0.5rem");
      ("xl", VString "0.75rem");
      ("2xl", VString "1rem");
      ("full", VString "9999px") ]);
    ("colors", VObject [
      ("default", member colors ["secondary"; "200"]);
      ("subtle", member colors ["secondary"; "100"]);
      ("muted", member colors ["secondary"; "50"]);
      ("focus", member colors ["primary"; "950"]);
      ("active", member colors ["primary"; "800"]);
      ("hover", member colors ["secondary"; "400"]);
      ("success", member colors ["semantic"; "success"; "500"]);
      ("error", member colors ["semantic"; "error"; "500"]);
      ("warning", member colors ["semantic"; "warning"; "400"]);
      ("info", member colors ["semantic"; "info"; "500"]);
      ("divider", member colors ["secondary"; "100"]);
      ("accent", member colors ["primary"; "950"]);
      ("transparent", VString "transparent") ]);
    ("rings", VObject [
      ("width", VObject [
        ("none", VString "0");
        ("thin", VString "1px");
        ("medium", VString "2px");
        ("thick", VString "4px") ]);
      ("colors", VObject [
        ("focus", member colors ["primary"; "950"]);
        ("error", member colors ["semantic"; "error"; "500"]);
        ("success", member colors ["semantic"; "success"; "500"]);
        ("warning", member colors ["semantic"; "warning"; "400"]);
        ("info", member colors ["semantic"; "info"; "500"]);
        ("subtle", member colors ["secondary"; "100"]) ]);
      ("offset", VObject [
        ("none", VString "0");
        ("sm", VString "1px");
        ("md", VString "2px");
        ("lg", VString "4px") ]) ]);
    ("directional", VObject [
      ("top", VObject [
        ("default", template [VString "1px solid "; member colors ["secondary"; "100"]]);
        ("thick", template [VString "2px solid "; member colors ["secondary"; "100"]]);
        ("accent", template [VString "1px solid "; member colors ["primary"; "950"]]) ]);
      ("bottom", VObject [
        ("default", template [VString "1px solid "; member colors ["secondary"; "100"]]);
        ("thick", template [VString "2px solid "; member colors ["secondary"; "100"]]);
        ("accent", template [VString "2px solid "; member colors ["primary"; "950"]]);
        ("divider", template [VString "1px solid "; member colors ["secondary"; "100"]]) ]);
      ("left", VObject [
        ("default", template [VString "1px solid "; member colors ["secondary"; "200"]]);
        ("thick", template [VString "4px solid "; member colors ["semantic"; "info"; "500"]]);
        ("accent", template [VString "2px solid "; member colors ["primary"; "950"]]);
        ("warning", template [VString "4px solid "; member colors ["semantic"; "warning"; "400"]]);
        ("error", template [VString "4px solid "; member colors ["semantic"; "error"; "500"]]) ]);
      ("right", VObject [
        ("default", template [VString "1px solid "; member colors ["secondary"; "200"]]);
        ("divider", template [VString "1px solid "; member colors ["secondary"; "100"]]) ]) ]);
    ("components", VObject [
      ("input", VObject [
        ("default", VObject [
          ("width", VString "2px");
          ("style", VString "solid");
          ("color", member colors ["secondary"; "100"]);
          ("radius", VString "0.375rem");
          ("focus", VObject [
            ("width", VString "2px");
            ("style", VString "solid");
            ("color", member colors ["primary"; "950"]);
            ("outline", VString "none") ]) ]);
        ("error", VObject [
          ("width", VString "2px");
          ("style", VString "solid");
          ("color", member colors ["semantic"; "error"; "500"]);
          ("radius", VString "0.375rem");
          ("background", member colors ["semantic"; "error"; "100"]) ]);
        ("success", VObject [
          ("width", VString "2px");
          ("style", VString "solid");
          ("color", member colors ["semantic"; "success"; "200"]);
          ("radius", VString "0.375rem");
          ("background", member colors ["semantic"; "success"; "100"]) ]) ]);
      ("card", VObject [
        ("default", VObject [
          ("width", VString "1px");
          ("style", VString "solid");
          ("color", member colors ["secondary"; "100"]);
          ("radius", VString "0.375rem") ]);
        ("elevated", VObject [
          ("width", VString "0");
          ("style", VString "none");
          ("color", VString "transparent");
          ("radius", VString "0.375rem");
          ("shadow", VString "0px 6px 20px 0px rgba(0,0,0,0.2)") ]);
        ("interactive", VObject [
          ("width", VString "2px");
          ("style", VString "solid");
          ("color", member colors ["secondary"; "100"]);
          ("radius", VString "0.375rem");
          ("hover", VObject [
            ("color", member colors ["primary"; "950"]) ]) ]) ]);
      ("button", VObject [
        ("primary", VObject [
          ("width", VString "0");
          ("style", VString "none");
          ("color", VString "transparent");
          ("radius", VString "0.375rem") ]);
        ("secondary", VObject [
          ("width", VString "1px");
          ("style", VString "solid");
          ("color", member colors ["secondary"; "200"]);
          ("radius", VString "0.375rem") ]);
        ("outline", VObject [
          ("width", VString "1px");
          ("style", VString "solid");
          ("color", member colors ["primary"; "950"]);
          ("radius", VString "0.375rem") ]);
        ("ghost", VObject [
          ("width", VString "0");
          ("style", VString "none");
          ("color", VString "transparent");
          ("radius", VString "0.375rem") ]) ]);
      ("modal", VObject [
        ("default", VObject [
          ("width", VString "0");
          ("style", VString "none");
          ("color", VString "transparent");
          ("radius", VString "0.5rem");
          ("shadow", VString "0px 6px 20px 0px rgba(0,0,0,0.2)") ]);
        ("content", VObject [
          ("width", VString "1px");
          ("style", VString "solid");
          ("color", member colors ["secondary"; "100"]);
          ("radius", VString "0.375rem") ]) ]);
      ("table", VObject [
        ("header", VObject [
          ("width", VString "2px");
          ("style", VString "solid");
          ("color", member colors ["secondary"; "100"]);
          ("direction", VString "bottom") ]);
        ("row", VObject [
          ("width", VString "1px");
          ("style", VString "solid");
          ("color", member colors ["secondary"; "100"]);
          ("direction", VString "bottom") ]);
        ("cell", VObject [
          ("width", VString "1px");
          ("style", VString "solid");
          ("color", member colors ["secondary"; "200"]) ]) ]);
      ("spinner", VObject [
        ("default", VObject [
          ("width", VString "2px");
          ("style", VString "solid");
          ("color", member colors ["primary"; "950"]);
          ("transparent", VString "transparent");
          ("radius", VString "9999px") ]);
        ("light", VObject [
          ("width", VString "2px");
          ("style", VString "solid");
          ("color", member colors ["primary"; "50"]);
          ("transparent", VString "transparent");
          ("radius", VString "9999px") ]) ]) ]);
    ("states", VObject [
      ("focus", VObject [
        ("ring", template [VString "2px solid "; member colors ["primary"; "950"]]);
        ("outline", VString "none");
        ("background", member colors ["primary"; "50"]) ]);
      ("hover", VObject [
        ("border", template [VString "1px solid "; member colors ["secondary"; "400"]]);
        ("ring", template [VString "2px solid "; member colors ["secondary"; "200"]]) ]);
      ("active", VObject [
        ("border", template [VString "2px solid "; member colors ["primary"; "950"]]);
        ("ring", template [VString "2px solid "; member colors ["primary"; "950"]]) ]);
      ("disabled", VObject [
        ("border", template [VString "1px solid "; member colors ["secondary"; "200"]]);
        ("opacity", VString "0.5") ]);
      ("error", VObject [
        ("border", template [VString "2px solid "; member colors ["semantic"; "error"; "500"]]);
        ("ring", template [VString "2px solid "; member colors ["semantic"; "error"; "500"]]);
        ("background", member colors ["semantic"; "error"; "100"]) ]);
      ("success", VObject [
        ("border", template [VString "2px solid "; member colors ["semantic"; "success"; "500"]]);
        ("ring", template [VString "2px solid "; member colors ["semantic"; "success"; "200"]]);
        ("background", member colors ["semantic"; "success"; "100"]) ]) ]);
    ("utilities", VObject [
      ("none", VString "none");
      ("default", template [VString "1px solid "; member colors ["secondary"; "200"]]);
      ("subtle", template [VString "1px solid "; member colors ["secondary"; "100"]]);
      ("thick", template [VString "2px solid "; member colors ["secondary"; "200"]]);
      ("accent", template [VString "2px solid "; member colors ["primary"; "950"]]);
      ("focusRing", template [VString "0 0 0 2px "; member colors ["primary"; "950"]]);
      ("dividerHorizontal", template [VString "1px solid "; member colors ["secondary"; "100"]]);
      ("dividerVertical", template [VString "1px solid "; member colors ["secondary"; "200"]]);
      ("calloutInfo", template [VString "4px solid "; member colors ["semantic"; "info"; "500"]]);
      ("calloutWarning", template [VString "4px solid "; member colors ["semantic"; "warning"; "400"]]);
      ("calloutError", template [VString "4px solid "; member colors ["semantic"; "error"; "500"]]);
      ("calloutSuccess", template [VString "4px solid "; member colors ["semantic"; "success"; "500"]]) ]) ].

(** [typography], from [packages/tokens/src/base/typography.ts]. *)
Definition typography : value :=
  VObject [
    ("fontFamily", VObject [
      ("sans", VArray [VString "var(--font-inter)"; VString "Inter"; VString "system-ui"; VString "-apple-system"; VString "BlinkMacSystemFont"; VString "Segoe UI"; VString "Roboto"; VString "Helvetica Neue"; VString "Arial"; VString "sans-serif"]);
      ("display", VArray [VString "var(--font-poppins)"; VString "Poppins"; VString "system-ui"; VString "-apple-system"; VString "BlinkMacSystemFont"; VString "Segoe UI"; VString "sans-serif"]);
      ("mono", VArray [VString "ui-monospace"; VString "SFMono-Regular"; VString "Menlo"; VString "Monaco"; VString "Consolas"; VString "Liberation Mono"; VString "Courier New"; VString "monospace"]) ]);
    ("fontSize", VObject [
      ("xs", VArray [VString "0.75rem"; VObject [("lineHeight", VString "1rem")]]);
      ("sm", VArray [VString "0.875rem"; VObject [("lineHeight", VString "1.25rem")]]);
      ("base", VArray [VString "1rem"; VObject [("lineHeight", VString "1.5rem")]]);
      ("lg", VArray [VString "1.125rem"; VObject [("lineHeight", VString "1.75rem")]]);
      ("xl", VArray [VString "1.25rem"; VObject [("lineHeight", VString "1.75rem")]]);
      ("2xl", VArray [VString "1.5rem"; VObject [("lineHeight", VString "2rem")]]);
      ("3xl", VArray [VString "1.875rem"; VObject [("lineHeight", VString "2.25rem")]]);
      ("4xl", VArray [VString "2.25rem"; VObject [("lineHeight", VString "2.5rem")]]);
      ("5xl", VArray [VString "3rem"; VObject [("lineHeight", VString "1")]]);
      ("6xl", VArray [VString "3.75rem"; VObject [("lineHeight", VString "1")]]) ]);
    ("fontWeight", VObject [
      ("normal", VString "400");
      ("medium", VString "500");
      ("semibold", VString "600");
      ("bold", VString "700") ]);
    ("lineHeight", VObject [
      ("none", VString "1");
      ("tight", VString "1.25");
      ("snug", VString "1.375");
      ("normal", VString "1.5");
      ("relaxed", VString "1.625");
      ("loose", VString "2");
      ("5", VString "1.25rem") ]);
    ("letterSpacing", VObject [
      ("tighter", VString "-0.05em");
      ("tight", VString "-0.025em");
      ("normal", VString "0");
      ("wide", VString "0.025em");
      ("wider", VString "0.05em");
      ("widest", VString "0.1em") ]);
    ("colors", VObject [
      ("primary", member colors ["primary"; "950"]);
      ("secondary", member colors ["primary"; "500"]);
      ("muted", member colors ["primary"; "400"]);
      ("inverse", member colors ["primary"; "50"]);
      ("success", member colors ["semantic"; "success"; "600"]);
      ("error", member colors ["semantic"; "error"; "500"]);
      ("warning", member colors ["semantic"; "warning"; "500"]);
      ("info", member colors ["semantic"; "info"; "600"]);
      ("link", member colors ["semantic"; "info"; "600"]);
      ("disabled", member colors ["primary"; "400"]) ]);
    ("headings", VObject [
      ("h1", VObject [
        ("fontSize", VString "3.5rem");
        ("lineHeight", VString "1");
        ("fontWeight", VString "600");
        ("color", member colors ["primary"; "950"]);
        ("responsive", VObject [("mobile", VString "3rem"); ("desktop", VString "3.5rem")]) ]);
      ("h2", VObject [
        ("fontSize", VString "1.5rem");
        ("lineHeight", VString "2rem");
        ("fontWeight", VString "400");
        ("color", member colors ["primary"; "950"]);
        ("variants", VObject [
          ("large", VObject [("fontSize", VString "2.25rem"); ("fontWeight", VString "600")]) ]) ]);
      ("h3", VObject [
        ("fontSize", VString "1.25rem");
        ("lineHeight", VString "1.75rem");
        ("fontWeight", VString "600");
        ("color", member colors ["primary"; "950"]) ]);
      ("h4", VObject [
        ("fontSize", VString "1.125rem");
        ("lineHeight", VString "1.75rem");
        ("fontWeight", VString "600");
        ("color", member colors ["primary"; "950"]) ]);
      ("h5", VObject [
        ("fontSize", VString "1rem");
        ("lineHeight", VString "1.5rem");
        ("fontWeight", VString "600");
        ("color", member colors ["primary"; "950"]) ]);
      ("h6", VObject [
        ("fontSize", VString "0.875rem");
        ("lineHeight", VString "1.25rem");
        ("fontWeight", VString "600");
        ("color", member colors ["primary"; "950"]) ]) ]);
    ("body", VObject [
      ("default", VObject [
        ("fontSize", VString "1rem");
        ("lineHeight", VString "1.5rem");
        ("fontWeight", VString "400");
        ("color", member colors ["primary"; "950"]) ]);
      ("large", VObject [
        ("fontSize", VString "1.125rem");
        ("lineHeight", VString "1.75rem");
        ("fontWeight", VString "400");
        ("color", member colors ["primary"; "950"]) ]);
      ("small", VObject [
        ("fontSize", VString "0.875rem");
        ("lineHeight", VString "1.25rem");
        ("fontWeight", VString "400");
        ("color", member colors ["primary"; "950"]) ]);
      ("caption", VObject [
        ("fontSize", VString "0.75rem");
        ("lineHeight", VString "1rem");
        ("fontWeight", VString "400");
        ("color", member colors ["primary"; "500"]) ]) ]);
    ("utilities", VObject [
      ("emphasis", VObject [
        ("fontWeight", VString "600");
        ("color", member colors ["primary"; "950"]) ]);
      ("strong", VObject [
        ("fontWeight", VString "700");
        ("color", member colors ["primary"; "950"]) ]);
      ("subtle", VObject [
        ("color", member colors ["primary"; "500"]) ]);
      ("muted", VObject [
        ("color", member colors ["primary"; "400"]) ]);
      ("underline", VObject [("textDecoration", VString "underline"); ("textUnderlineOffset", VString "2px")]);
      ("truncate", VObject [("overflow", VString "hidden"); ("textOverflow", VString "ellipsis"); ("whiteSpace", VString "nowrap")]);
      ("balance", VObject [("textWrap", VString "balance")]) ]);
    ("responsive", VObject [
      ("hero", VObject [
        ("base", VObject [("fontSize", VString "3rem"); ("lineHeight", VString "1"); ("fontWeight", VString "600")]);
        ("sm", VObject [("fontSize", VString "3.5rem"); ("lineHeight", VString "1")]) ]);
      ("section", VObject [
        ("base", VObject [("fontSize", VString "1.5rem"); ("lineHeight", VString "2rem")]);
        ("sm", VObject [("fontSize", VString "2.25rem"); ("lineHeight", VString "2.5rem")]) ]);
      ("body", VObject [
        ("base", VObject [("fontSize", VString "0.875rem"); ("lineHeight", VString "1.25rem")]);
        ("sm", VObject [("fontSize", VString "1rem"); ("lineHeight", VString "1.5rem")]) ]);
      ("caption", VObject [
        ("base", VObject [("fontSize", VString "0.75rem"); ("lineHeight", VString "1rem")]);
        ("md", VObject [("fontSize", VString "0.875rem"); ("lineHeight", VString "1.25rem")]) ]) ]) ].

(** ** Token getters *)

(** The loop shared by the getters:
    [for (const key of keys) { if (value && typeof value === 'object' && key in value) value = value[key]; else throw new Error(notFound) }] *)
Fixpoint walk (notFound : string) (value : value) (keys : list string)
  : completion JS.value :=
  match keys with
  | [] => Normal value
  | key :: rest =>
      if truthy value && (typeof value =? "object") && has_property value key
      then walk notFound (get_property value key) rest
      else Throw (Error notFound)
  end.

(** [`${what} path "${path}" not found`] *)
Definition not_found (what path : string) : string :=
  what ++ " path " ++ dquote ++ path ++ dquote ++ " not found".

(** [`${what} path "${path}" does not resolve to a ${ty} value`] *)
Definition not_resolved (what path ty : string) : string :=
  what ++ " path " ++ dquote ++ path ++ dquote ++ " does not resolve to a " ++ ty ++ " value".

(** The body of a getter over the tree it reads: split the path on [.],
    walk, then, for the getters that have one, the [typeof] check on the
    final value ([leaf] is the type it asks for). *)
Definition lookup (what : string) (leaf : option string) (tree : value)
    (path : string) : completion value :=
  let keys := split "." path in
  bind (walk (not_found what path) tree keys) (fun value =>
    match leaf with
    | Some ty =>
        if negb (typeof value =? ty) then Throw (Error (not_resolved what path ty))
        else Normal value
    | None => Normal value
    end).

Definition getColor : string -> completion value :=
  lookup "Color" (Some "string") colors.

Definition getSpacing : string -> completion value :=
  lookup "Spacing" (Some "string") spacing.

Definition getZIndex : string -> completion value :=
  lookup "Z-index" (Some "number") zIndex.

Definition getShadow : string -> completion value :=
  lookup "Shadow" None shadows.

Definition getBreakpoint : string -> completion value :=
  lookup "Breakpoint" None breakpoints.

Definition getTypography : string -> completion value :=
  lookup "Typography" None typography.

Definition getBorder : string -> completion value :=
  lookup "Border" None borders.

(** The seven categories and their getters. *)
Inductive category : Type :=
| Colors | Spacing | ZIndex | Shadows | Breakpoints | Typography | Borders.

Definition getter (c : category) : string -> completion value :=
  match c with
  | Colors => getColor
  | Spacing => getSpacing
  | ZIndex => getZIndex
  | Shadows => getShadow
  | Breakpoints => getBreakpoint
  | Typography => getTypography
  | Borders => getBorder
  end.

Definition label (c : category) : string :=
  match c with
  | Colors => "Color"
  | Spacing => "Spacing"
  | ZIndex => "Z-index"
  | Shadows => "Shadow"
  | Breakpoints => "Breakpoint"
  | Typography => "Typography"
  | Borders => "Border"
  end.

Definition tree (c : category) : value :=
  match c with
  | Colors => colors
  | Spacing => spacing
  | ZIndex => zIndex
  | Shadows => shadows
  | Breakpoints => breakpoints
  | Typography => typography
  | Borders => borders
  end.

(** The type the getter checks its result against, if it checks. *)
Definition leaf_type (c : category) : option string :=
  match c with
  | Colors | Spacing => Some "string"
  | ZIndex => Some "number"
  | Shadows | Breakpoints | Typography | Borders => None
  end.

(** ** The button variant resolver *)

Definition baseClasses : string :=
  "inline-flex items-center justify-center rounded-md font-medium transition-colors focus:outline-none focus:ring-2 focus:ring-offset-2 disabled:opacity-50 disabled:cursor-not-allowed".

Definition variantClasses : value :=
  VObject [
    ("primary", VString "bg-blue-600 text-white hover:bg-blue-700 focus:ring-blue-500");
    ("secondary", VString "bg-gray-200 text-gray-900 hover:bg-gray-300 focus:ring-gray-500");
    ("outline", VString "border border-gray-300 bg-transparent hover:bg-gray-50 focus:ring-gray-500");
    ("ghost", VString "bg-transparent hover:bg-gray-100 focus:ring-gray-500") ].

Definition sizeClasses : value :=
  VObject [
    ("sm", VString "h-8 px-3 text-sm");
    ("md", VString "h-10 px-4 text-base");
    ("lg", VString "h-12 px-6 text-lg") ].

(** A destructuring default [{ name = dflt }]: it applies when the property
    reads as [undefined]. *)
Definition with_default (v dflt : value) : value :=
  match v with
  | VUndefined => dflt
  | _ => v
  end.

(** The arrow function [({ variant = 'primary', size = 'md' }) => ...], with
    the three constants it declares as parameters.  Destructuring [null] or
    [undefined] is a [TypeError].  The function is declared on
    [{ variant?: string; size?: string }] and its tables are object
    literals of strings: on those, every read and every conversion below is
    exact.  Tables that are not objects, and axis values that are objects
    overriding [toString], are outside the model (see [to_string]). *)
Definition resolve (baseClasses : string) (variantClasses sizeClasses : value)
    (props : value) : completion string :=
  match props with
  | VUndefined | VNull => Throw TypeError
  | _ =>
      let variant := with_default (get_property props "variant") (VString "primary") in
      let size := with_default (get_property props "size") (VString "md") in
      Normal (template_string
                [VString baseClasses; VString " ";
                 or_else (get_property variantClasses (to_string variant))
                         (get_property variantClasses "primary");
                 VString " ";
                 or_else (get_property sizeClasses (to_string size))
                         (get_property sizeClasses "md")])
  end.

(** [getButtonVariants()] *)
Definition getButtonVariants (_ : unit) : value -> completion string :=
  resolve baseClasses variantClasses sizeClasses.

(** A selection object [{ variant, size }]; an absent axis is [None]. *)
Definition selection (variant size : option string) : value :=
  VObject
    ((match variant with Some v => [("variant", VString v)] | None => [] end) ++
     (match size with Some s => [("size", VString s)] | None => [] end)).

(** [cn(...classes: (string | undefined | null | false)[])]:
    [classes.filter(Boolean).join(' ')].  Exact on strings, [undefined] and
    [null]; [false], which the filter drops like [undefined], has no value
    in the model. *)
Definition cn (classes : list value) : string :=
  String.concat " " (map to_string (filter truthy classes)).

(** The [className] the [Button] component computes:
    [cn(variants({ variant, size }), className)]. *)
Definition Button_className (props : value) : completion string :=
  match props with
  | VUndefined | VNull => Throw TypeError
  | _ =>
      let className := get_property props "className" in
      let variant := with_default (get_property props "variant") (VString "primary") in
      let size := with_default (get_property props "size") (VString "md") in
      let variants := getButtonVariants tt in
      bind (variants (VObject [("variant", variant); ("size", size)]))
           (fun classes => Normal (cn [VString classes; className]))
  end.

(** The class tokens of a class string. *)
Definition class_tokens (s : string) : list string :=
  filter (fun t => negb (t =? EmptyString)) (split " " s).

Fixpoint has_duplicate (l : list string) : bool :=
  match l with
  | [] => false
  | x :: rest => existsb (String.eqb x) rest || has_duplicate rest
  end.

(** ** Own children and inherited names *)

(** The children of a node of a token tree: the own properties of an object
    literal and the elements of an array literal. *)
Definition child (v : value) (key : string) : option value :=
  match v with
  | VObject props => assoc key props
  | VArray elems =>
      match array_index key (length elems) with
      | Some i => nth_error elems i
      | None => None
      end
  | _ => None
  end.

(** Follow a list of segments through children only. *)
Fixpoint descend (v : value) (keys : list string) : option value :=
  match keys with
  | [] => Some v
  | key :: rest =>
      match child v key with
      | Some x => descend x rest
      | None => None
      end
  end.

(** A composite value (an object or array literal), as opposed to a string
    or a number. *)
Definition interior (v : value) : bool :=
  match v with
  | VObject _ | VArray _ => true
  | _ => false
  end.

Definition mentions (key : string) (names : list string) : bool :=
  existsb (String.eqb key) names.

(** The names every object literal answers to without declaring them. *)
Definition object_inherited (key : string) : bool :=
  mentions key ("__proto__" :: map fst object_prototype_methods).

(** The names an array literal answers to beyond its indices. *)
Definition array_inherited (key : string) : bool :=
  mentions key ("length" :: map fst array_prototype_methods).

Definition inherited (key : string) : bool :=
  object_inherited key || array_inherited key.

(** ** The color conversion as the specification words it

    Split the six hexadecimal digits after [#] into three pairs, read each
    pair in base 16, and print [rgb(R G B / opacity)]. *)
Definition pair_value (hi lo : ascii) : option Z :=
  match hex_digit hi, hex_digit lo with
  | Some h, Some l => Some (16 * h + l)%Z
  | _, _ => None
  end.

Definition rgb_of_hex (hex opacity : string) : option string :=
  match hex with
  | String hash (String r1 (String r2 (String g1 (String g2
      (String b1 (String b2 EmptyString)))))) =>
      if Ascii.eqb hash "#" then
        match pair_value r1 r2, pair_value g1 g2, pair_value b1 b2 with
        | Some r, Some g, Some b =>
            Some ("rgb(" ++ string_of_Z r ++ " " ++ string_of_Z g ++ " "
                    ++ string_of_Z b ++ " / " ++ opacity ++ ")")
        | _, _, _ => None
        end
      else None
  | _ => None
  end.

(** The derived entries of [shadows.colors]: name, the color token each is
    computed from, and the opacity written in its template. *)
Definition derived_shadow_colors : list (string * list string * string) :=
  [ ("primary", ["primary"; "950"], "0.1");
    ("secondary", ["secondary"; "500"], "0.1");
    ("success", ["semantic"; "success"; "500"], "0.2");
    ("error", ["semantic"; "error"; "500"], "0.2");
    ("warning", ["semantic"; "warning"; "500"], "0.2");
    ("info", ["semantic"; "info"; "500"], "0.2") ].

(** The fragments the resolver picks for a selection. *)
Definition variant_fragment (variant : option string) : string :=
  let key := match variant with Some v => v | None => "primary" end in
  to_string (or_else (get_property variantClasses key)
                     (get_property variantClasses "primary")).

Definition size_fragment (size : option string) : string :=
  let key := match size with Some s => s | None => "md" end in
  to_string (or_else (get_property sizeClasses key)
                     (get_property sizeClasses "md")).

(** A table whose variant and size fragments share a token. *)
Definition padded_variants : value := VObject [("primary", VString "p-2 bg-blue-600")].
Definition padded_sizes : value := VObject [("md", VString "p-2 h-10")].

(** An axis value that is absent, or is not a name inherited from
    [Object.prototype]. *)
Definition ordinary (axis : option string) : bool :=
  match axis with
  | Some x => negb (object_inherited x)
  | None => true
  end.

(** ** More of the JavaScript fragment *)

Definition dec_digit (c : ascii) : option Z :=
  let n := Z.of_nat (nat_of_ascii c) in
  if ((48 <=? n) && (n <=? 57))%Z then Some (n - 48)%Z else None.

(** The value of the longest prefix of decimal digits; [None] when it is
    empty. *)
Fixpoint dec_prefix (acc : option Z) (s : string) : option Z :=
  match s with
  | EmptyString => acc
  | String c rest =>
      match dec_digit c with
      | Some d =>
          dec_prefix (Some (10 * match acc with Some a => a | None => 0 end + d)%Z) rest
      | None => acc
      end
  end.

(** [parseInt(s)], no radix given: base 16 after [0x] or [0X], base 10
    otherwise.  The result is exact as long as it is a safe integer (below
    2^53 in absolute value). *)
Definition parseInt (s : string) : number :=
  let s1 := trim_start s in
  let '(sign, s2) :=
    match s1 with
    | String c rest =>
        if Ascii.eqb c "-" then ((-1)%Z, rest)
        else if Ascii.eqb c "+" then (1%Z, rest)
        else (1%Z, s1)
    | EmptyString => (1%Z, s1)
    end in
  let digits :=
    match s2 with
    | String c0 (String c1 rest) =>
        if Ascii.eqb c0 "0" && (Ascii.eqb c1 "x" || Ascii.eqb c1 "X")
        then hex_prefix None rest
        else dec_prefix None s2
    | _ => dec_prefix None s2
    end in
  match digits with
  | Some n => Some (sign * n)%Z
  | None => None
  end.

Definition safe_integer (n : Z) : bool :=
  ((-9007199254740991 <=? n) && (n <=? 9007199254740991))%Z.

(** The integer a property key denotes when it is an array index: the
    canonical decimal form of a number below 2^32 - 1. *)
Definition index_key (key : string) : option Z :=
  match dec_prefix None key with
  | Some n => if (string_of_Z n =? key) && (n <? 4294967295)%Z then Some n else None
  | None => None
  end.

Fixpoint insert_by_index (n : Z) (kv : string * value)
    (sorted : list (Z * (string * value))) : list (Z * (string * value)) :=
  match sorted with
  | [] => [(n, kv)]
  | (m, kv') :: rest =>
      if (n <? m)%Z then (n, kv) :: sorted
      else (m, kv') :: insert_by_index n kv rest
  end.

(** The own enumerable string-keyed properties in the order the engine
    lists them: array indices ascending, then the other keys in creation
    order. *)
Definition own_entries (props : list (string * value)) : list (string * value) :=
  let indexed :=
    fold_left (fun acc kv => match index_key (fst kv) with
                             | Some n => insert_by_index n kv acc
                             | None => acc
                             end) props [] in
  map snd indexed ++
  filter (fun kv => match index_key (fst kv) with Some _ => false | None => true end) props.

(** [Object.entries(v)] *)
Definition Object_entries (v : value) : list (string * value) :=
  match v with
  | VObject props => own_entries props
  | VArray elems => combine (map string_of_nat (seq 0 (length elems))) elems
  | _ => []
  end.

(** ** Utility objects of the token modules *)

Module zIndexUtils.

(** [keyof typeof zIndex.components] *)
Inductive component : Type :=
| card | form | navigation | modal | admin | notification.

Definition component_key (c : component) : string :=
  match c with
  | card => "card"
  | form => "form"
  | navigation => "navigation"
  | modal => "modal"
  | admin => "admin"
  | notification => "notification"
  end.

(** [getComponent(component, variant = 'default')] *)
Definition getComponent (c : component) (variant : option string) : value :=
  let variant := match variant with Some v => v | None => "default" end in
  let componentZIndex := get_property (member zIndex ["components"]) (component_key c) in
  if (typeof componentZIndex =? "object") && has_property componentZIndex variant
  then get_property componentZIndex variant
  else componentZIndex.

(** [isTailwindZIndex(value)], on integers. *)
Definition isTailwindZIndex (value : Z) : bool :=
  let tailwindValues := [0; 10; 20; 30; 40; 50]%Z in
  existsb (Z.eqb value) tailwindValues.

(** [toTailwindClass(value)], on integers. *)
Definition toTailwindClass (value : Z) : string :=
  if (value =? -1)%Z then "z-[-1]"
  else if (value =? 0)%Z then "z-0"
  else if (value =? 1)%Z then "z-[1]"
  else if (value =? 2)%Z then "z-[2]"
  else if (value =? 5)%Z then "z-[5]"
  else if (value =? 10)%Z then "z-10"
  else if (value =? 20)%Z then "z-20"
  else if (value =? 30)%Z then "z-30"
  else if (value =? 40)%Z then "z-40"
  else if (value =? 50)%Z then "z-50"
  else if (value =? 9999)%Z then "z-[9999]"
  else if (value =? 10000)%Z then "z-[10000]"
  else template_string [VString "z-["; VNumber value; VString "]"].

(** [validateZIndex(value)] *)
Definition validateZIndex (value : Z) : bool :=
  ((-1 <=? value) && (value <=? 10000))%Z.

End zIndexUtils.

Module shadowUtils.

(** [combineShadows(...shadowValues)]:
    [shadowValues.filter(shadow => shadow && shadow !== 'none').join(', ')],
    on the strings its type admits. *)
Definition combineShadows (shadowValues : list string) : string :=
  String.concat ", "
    (filter (fun shadow => negb (shadow =? EmptyString) && negb (shadow =? "none"))
            shadowValues).

(** [keyof typeof shadows.colors] *)
Inductive color : Type :=
| default | subtle | strong | primary | secondary
| success | error | warning | info | email.

Definition color_key (c : color) : string :=
  match c with
  | default => "default"
  | subtle => "subtle"
  | strong => "strong"
  | primary => "primary"
  | secondary => "secondary"
  | success => "success"
  | error => "error"
  | warning => "warning"
  | info => "info"
  | email => "email"
  end.

(** [getFocusRing(color = 'default')] *)
Definition getFocusRing (c : option color) : string :=
  let c := match c with Some c => c | None => default end in
  template_string
    [VString "0 0 0 2px "; get_property (member shadows ["colors"]) (color_key c)].

End shadowUtils.

Module breakpointUtils.

(** [keyof typeof breakpoints.grid.patterns] *)
Inductive grid_pattern : Type :=
| standard | admin | features | coverage.

Definition grid_pattern_key (p : grid_pattern) : string :=
  match p with
  | standard => "standard"
  | admin => "admin"
  | features => "features"
  | coverage => "coverage"
  end.

(** [getGridColumns(pattern, breakpoint)] *)
Definition getGridColumns (pattern : grid_pattern) (breakpoint : string) : value :=
  let gridPattern :=
    get_property (member breakpoints ["grid"; "patterns"]) (grid_pattern_key pattern) in
  if has_property gridPattern breakpoint then get_property gridPattern breakpoint
  else get_property gridPattern "base".

(** [keyof typeof breakpoints.typography] *)
Inductive typography_type : Type :=
| headings | body.

Definition typography_type_key (t : typography_type) : string :=
  match t with
  | headings => "headings"
  | body => "body"
  end.

(** [getResponsiveTypography(type, variant, breakpoint = 'base')] *)
Definition getResponsiveTypography (type : typography_type) (variant : string)
    (breakpoint : option string) : value :=
  let breakpoint := match breakpoint with Some b => b | None => "base" end in
  let typographyType :=
    get_property (member breakpoints ["typography"]) (typography_type_key type) in
  if has_property typographyType variant then
    let variantObj := get_property typographyType variant in
    if (typeof variantObj =? "object") && has_property variantObj breakpoint
    then get_property variantObj breakpoint
    else VNull
  else VNull.

(** What the callback of [getAllBreakpoints] computes from a screen width:
    [parseInt(value.replace('px', ''))]. *)
Definition pixels (value : string) : number :=
  parseInt (String_replace "px" EmptyString value).

(** One element of the array [getAllBreakpoints] returns. *)
Record breakpoint_info : Type := {
  info_name : string;
  info_value : string;
  info_pixels : number
}.

(** [getAllBreakpoints()]; calling [replace] on a value that is not a string
    is a [TypeError]. *)
Definition getAllBreakpoints (_ : unit) : completion (list breakpoint_info) :=
  fold_right
    (fun entry rest =>
       match snd entry with
       | VString value =>
           bind rest (fun infos =>
             Normal ({| info_name := fst entry; info_value := value;
                        info_pixels := pixels value |} :: infos))
       | _ => Throw TypeError
       end)
    (Normal [])
    (Object_entries (member breakpoints ["screens"])).

End breakpointUtils.

Module typographyUtils.

(** ['hero' | 'section' | 'body' | 'caption'] *)
Inductive pattern : Type :=
| hero | section | body | caption.

Definition pattern_key (p : pattern) : string :=
  match p with
  | hero => "hero"
  | section => "section"
  | body => "body"
  | caption => "caption"
  end.

(** ['base' | 'sm'] *)
Inductive breakpoint : Type :=
| base | sm.

Definition breakpoint_key (b : breakpoint) : string :=
  match b with
  | base => "base"
  | sm => "sm"
  end.

(** [getResponsive(pattern, breakpoint = 'base')] *)
Definition getResponsive (p : pattern) (b : option breakpoint) : value :=
  let b := match b with Some b => b | None => base end in
  get_property (get_property (member typography ["responsive"]) (pattern_key p))
               (breakpoint_key b).

(** Reading a property of [undefined] or [null] is a [TypeError]. *)
Definition read (v : value) (key : string) : completion value :=
  match v with
  | VUndefined | VNull => Throw TypeError
  | _ => Normal (get_property v key)
  end.

(** [v?.key] *)
Definition read_optional (v : value) (key : string) : value :=
  match v with
  | VUndefined | VNull => VUndefined
  | _ => get_property v key
  end.

(** [buildTextStyle(options)] *)
Definition buildTextStyle (options : value) : completion value :=
  match options with
  | VUndefined | VNull => Throw TypeError
  | _ =>
      let size := with_default (get_property options "size") (VString "base") in
      let weight := with_default (get_property options "weight") (VString "normal") in
      let color := with_default (get_property options "color") (VString "primary") in
      let lineHeight := with_default (get_property options "lineHeight") (VString "normal") in
      let letterSpacing :=
        with_default (get_property options "letterSpacing") (VString "normal") in
      let family := with_default (get_property options "family") (VString "sans") in
      let sized := get_property (member typography ["fontSize"]) (to_string size) in
      bind (read sized "0") (fun fontSize =>
      bind (read sized "1") (fun second =>
        Normal (VObject [
          ("fontFamily", get_property (member typography ["fontFamily"]) (to_string family));
          ("fontSize", fontSize);
          ("lineHeight",
             or_else (read_optional second "lineHeight")
                     (get_property (member typography ["lineHeight"]) (to_string lineHeight)));
          ("fontWeight", get_property (member typography ["fontWeight"]) (to_string weight));
          ("color", get_property (member typography ["colors"]) (to_string color));
          ("letterSpacing",
             get_property (member typography ["letterSpacing"]) (to_string letterSpacing)) ])))
  end.

(** An options object; an absent option is [None]. *)
Definition text_options (size weight color lineHeight letterSpacing family : option string)
  : value :=
  VObject
    (flat_map (fun kv => match snd kv with
                         | Some x => [(fst kv, VString x)]
                         | None => []
                         end)
       [("size", size); ("weight", weight); ("color", color);
        ("lineHeight", lineHeight); ("letterSpacing", letterSpacing);
        ("family", family)]).

End typographyUtils.

(** The props a [Button] is rendered with; an absent prop is [None]. *)
Definition button_props (variant size className : option string) : value :=
  VObject
    (flat_map (fun kv => match snd kv with
                         | Some x => [(fst kv, VString x)]
                         | None => []
                         end)
       [("variant", variant); ("size", size); ("className", className)]).

(** ** What a walk can reach *)

(** [reaches P v]: every string, number or [undefined] that property reads
    starting at [v] can produce satisfies [P]. *)
Fixpoint reaches (P : value -> bool) (v : value) : bool :=
  match v with
  | VObject props => forallb (fun kv => reaches P (snd kv)) props
  | VArray elems =>
      P (VNumber (Z.of_nat (length elems))) && P (VNumber 0) && forallb (reaches P) elems
  | VArrayPrototype => P (VNumber 0)
  | VUndefined | VString _ | VNumber _ => P v
  | VNull | VFunction _ | VObjectPrototype => true
  end.

Definition is_undefined (v : value) : bool :=
  match v with
  | VUndefined => true
  | _ => false
  end.

(** [#] followed by six hexadecimal digits. *)
Definition hex_color (s : string) : bool :=
  match rgb_of_hex s EmptyString with
  | Some _ => true
  | None => false
  end.

Definition contains (c : ascii) (s : string) : bool :=
  existsb (Ascii.eqb c) (list_ascii_of_string s).

(** No key of the tree contains [c]. *)
Fixpoint keys_avoid (c : ascii) (v : value) : bool :=
  match v with
  | VObject props =>
      forallb (fun kv => negb (contains c (fst kv)) && keys_avoid c (snd kv)) props
  | VArray elems => forallb (keys_avoid c) elems
  | _ => true
  end.

(** An object whose own properties are all strings: a selection, or a
    table of fragments. *)
Definition string_table (entries : list (string * string)) : value :=
  VObject (map (fun kv => (fst kv, VString (snd kv))) entries).

(** The arguments [cn] is declared on, as far as the model has them. *)
Definition class_argument (v : value) : bool :=
  match v with
  | VString _ | VUndefined | VNull => true
  | _ => false
  end.

(** ** Lemmas on property lookup *)

Lemma assoc_not_mentioned (key : string) (props : list (string * value)) :
  mentions key (map fst props) = false -> assoc key props = None.
Proof.
  induction props as [| [k v] rest IH]; simpl; [reflexivity |].
  intros H. apply orb_false_iff in H. destruct H as [Hk Hrest].
  rewrite String.eqb_sym, Hk. auto.
Qed.

Lemma object_inherited_false (key : string) :
  object_inherited key = false ->
  (key =? "__proto__") = false /\ assoc key object_prototype_methods = None.
Proof.
  unfold object_inherited, mentions. cbn [existsb].
  intros H. apply orb_false_iff in H. destruct H as [Hp Hm].
  split; [exact Hp | now apply assoc_not_mentioned].
Qed.

Lemma array_inherited_false (key : string) :
  array_inherited key = false ->
  (key =? "length") = false /\ assoc key array_prototype_methods = None.
Proof.
  unfold array_inherited, mentions. cbn [existsb].
  intros H. apply orb_false_iff in H. destruct H as [Hp Hm].
  split; [exact Hp | now apply assoc_not_mentioned].
Qed.

(** On an object literal, a name that is not inherited is read from the
    own properties alone. *)
Lemma get_property_object (props : list (string * value)) (key : string) :
  object_inherited key = false ->
  get_property (VObject props) key =
    match assoc key props with Some x => x | None => VUndefined end.
Proof.
  intros H. destruct (object_inherited_false key H) as [Hp Hm].
  unfold get_property. cbn [prototype_chain find_property own_property is_object].
  destruct (assoc key props); [reflexivity |].
  rewrite Hm, Hp. reflexivity.
Qed.

(** Away from the inherited names, [key in v] and [v[key]] agree with the
    children of [v], whatever [v] is. *)
Lemma has_property_child (v : value) (key : string) :
  inherited key = false ->
  has_property v key = match child v key with Some _ => true | None => false end.
Proof.
  intros H. apply orb_false_iff in H. destruct H as [Ho Ha].
  destruct (object_inherited_false key Ho) as [Hp Hm].
  destruct (array_inherited_false key Ha) as [Hl Hma].
  unfold has_property.
  destruct v; cbn [prototype_chain find_property own_property is_object child];
    rewrite ?Hl, ?Hm, ?Hma, ?Hp; try reflexivity.
  - destruct (assoc key props); reflexivity.
  - destruct (array_index key (length elems)) as [i |]; [| reflexivity].
    destruct (nth_error elems i); reflexivity.
Qed.

Lemma get_property_child (v : value) (key : string) (x : value) :
  child v key = Some x -> get_property v key = x /\ has_property v key = true.
Proof.
  unfold get_property, has_property.
  destruct v; cbn [child]; try discriminate.
  - intros H. cbn [prototype_chain find_property own_property]. rewrite H. auto.
  - intros H. cbn [prototype_chain find_property own_property].
    destruct (key =? "length") eqn:Hl.
    + apply String.eqb_eq in Hl. subst key.
      unfold array_index in H.
      destruct (find _ _) as [i |] eqn:Hf; [| discriminate].
      apply find_some in Hf. destruct Hf as [_ Hf].
      apply String.eqb_eq in Hf. exfalso.
      unfold string_of_nat in Hf.
      destruct (Nat.to_uint i) eqn:Hu; cbn in Hf; discriminate.
    + rewrite H. auto.
Qed.

(** ** The getters *)

Lemma getter_unfold (c : category) :
  getter c = lookup (label c) (leaf_type c) (tree c).
Proof. destruct c; reflexivity. Qed.

(** A path that follows children all the way is walked without a throw. *)
Lemma walk_descend_some (msg : string) (keys : list string) :
  forall v x, descend v keys = Some x -> walk msg v keys = Normal x.
Proof.
  induction keys as [| key rest IH]; intros v x; cbn [descend walk].
  - intros H. injection H as ->. reflexivity.
  - destruct (child v key) as [y |] eqn:Hc; [| discriminate].
    intros H. destruct (get_property_child v key y Hc) as [Hg Hh].
    rewrite Hh, Hg.
    destruct v; cbn [child] in Hc; try discriminate; cbn; now apply IH.
Qed.

(** A path that leaves the children at some segment, and uses no inherited
    name, makes the walk throw its not-found error. *)
Lemma walk_descend_none (msg : string) (keys : list string) :
  forall v,
    (forall k, In k keys -> inherited k = false) ->
    descend v keys = None ->
    walk msg v keys = Throw (Error msg).
Proof.
  induction keys as [| key rest IH]; intros v Hk; cbn [descend walk].
  - discriminate.
  - assert (Hkey : inherited key = false) by (apply Hk; now left).
    rewrite (has_property_child v key Hkey).
    destruct (child v key) as [y |] eqn:Hc.
    + intros H.
      destruct (get_property_child v key y Hc) as [Hg _]. rewrite Hg.
      destruct v; cbn [child] in Hc; try discriminate; cbn;
        (apply IH; [intros k Hin; apply Hk; now right | exact H]).
    + intros _. now rewrite andb_false_r.
Qed.

(** Every getter, on a path one of whose segments names no child and none
    of whose segments is an inherited name, throws the error
    [<Category> path "<path>" not found]. *)
Lemma getter_missing_segment (c : category) (path : string) :
  (forall k, In k (split "." path) -> inherited k = false) ->
  descend (tree c) (split "." path) = None ->
  getter c path = Throw (Error (not_found (label c) path)).
Proof.
  intros Hk Hd. rewrite getter_unfold. unfold lookup.
  now rewrite (walk_descend_none _ _ _ Hk Hd).
Qed.

(** C2 — a segment that names no child must make the lookup fail with the
    not-found error naming the path.  [getShadow('toString')] has a single
    segment, [toString], which is not a child of [shadows]; the [in] test of
    the loop finds it on [Object.prototype], and the getter returns that
    built-in function instead of throwing; so do [getBreakpoint],
    [getTypography] and [getBorder].  On the same path [getColor] throws,
    but the error of its [typeof] check, not the not-found one. *)
Theorem getShadow_inherited_segment :
  child shadows "toString" = None /\
  getShadow "toString" = Normal (VFunction "toString") /\
  getBreakpoint "toString" = Normal (VFunction "toString") /\
  getTypography "toString" = Normal (VFunction "toString") /\
  getBorder "toString" = Normal (VFunction "toString") /\
  getColor "toString" = Throw (Error (not_resolved "Color" "toString" "string")).
Proof. repeat split; vm_compute; reflexivity. Qed.

(** C3, as stated, fails: [getShadow] and [getBreakpoint] return the
    subtree a path resolves to. *)
Lemma getters_return_subtrees :
  getShadow "colors.email" =
    Normal (VObject [("button", VString "rgba(79, 70, 229, 0.3)");
                     ("card", VString "rgba(0, 0, 0, 0.1)")]) /\
  getBreakpoint "grid.columns" =
    Normal (VObject [("mobile", VNumber 1); ("tablet", VNumber 2);
                     ("desktop", VNumber 3); ("wide", VNumber 4)]).
Proof. split; vm_compute; reflexivity. Qed.

(** C3 (amended) — on a path that resolves to a subtree, [getColor],
    [getSpacing] and [getZIndex] throw
    [<Category> path "<path>" does not resolve to a <type> value];
    [getShadow], [getBreakpoint], [getTypography] and [getBorder], which
    have no check on the final value, return the subtree. *)
Theorem getter_on_subtree (c : category) (path : string) (v : value) :
  descend (tree c) (split "." path) = Some v ->
  interior v = true ->
  getter c path =
    match leaf_type c with
    | Some ty => Throw (Error (not_resolved (label c) path ty))
    | None => Normal v
    end.
Proof.
  intros Hd Hi. rewrite getter_unfold. unfold lookup.
  rewrite (walk_descend_some _ _ _ _ Hd). cbn [bind].
  destruct v; try discriminate; destruct c; reflexivity.
Qed.

Lemma getter_on_subtree_witness :
  descend (tree Colors) (split "." "semantic.error") =
    Some (member colors ["semantic"; "error"]) /\
  interior (member colors ["semantic"; "error"]) = true /\
  getter Colors "semantic.error" =
    Throw (Error (not_resolved "Color" "semantic.error" "string")).
Proof.
  split; [reflexivity | split; [reflexivity |]].
  exact (getter_on_subtree Colors "semantic.error" _ eq_refl eq_refl).
Defined.

(** C8, as stated, fails: [getColor] starts from the [colors] object, which
    has no [colors] property. *)
Lemma getColor_prefixed_path :
  getColor "colors.semantic.error.500" =
    Throw (Error (not_found "Color" "colors.semantic.error.500")).
Proof. vm_compute. reflexivity. Qed.

(** C8 (amended) — [getColor('semantic.error.500')], the path taken from
    the root of the color tree, returns ['#ef4444']. *)
Theorem getColor_semantic_error_500 :
  getColor "semantic.error.500" = Normal (VString "#ef4444").
Proof. vm_compute. reflexivity. Qed.

(** ** Derived shadow colors *)

Lemma append_assoc (a b c : string) : (a ++ b) ++ c = a ++ b ++ c.
Proof. induction a as [| x a IH]; cbn; [reflexivity | now rewrite IH]. Qed.

Lemma hex_digit_char (c : ascii) (d : Z) :
  hex_digit c = Some d ->
  line_terminator c = false /\ white_space c = false /\
  Ascii.eqb c "-" = false /\ Ascii.eqb c "+" = false /\
  Ascii.eqb c "x" = false /\ Ascii.eqb c "X" = false.
Proof.
  destruct c as [[] [] [] [] [] [] [] []]; vm_compute; intros H;
    try discriminate H; repeat split.
Qed.

(** [parseInt] reads a pair of hexadecimal digits as the specification
    does. *)
Lemma parseInt16_pair (hi lo : ascii) (n : Z) :
  pair_value hi lo = Some n ->
  parseInt16 (String hi (String lo EmptyString)) = Some n.
Proof.
  unfold pair_value.
  destruct (hex_digit hi) as [h |] eqn:Hh; [| discriminate].
  destruct (hex_digit lo) as [l |] eqn:Hl; [| discriminate].
  intros H. injection H as <-.
  destruct (hex_digit_char hi h Hh) as (_ & Hw & Hm & Hp & _ & _).
  destruct (hex_digit_char lo l Hl) as (_ & _ & _ & _ & Hx & HX).
  unfold parseInt16. cbn [trim_start]. rewrite Hw, Hm, Hp, Hx, HX.
  rewrite andb_false_r. cbn [hex_prefix]. rewrite Hh, Hl.
  f_equal. destruct h; lia.
Qed.

(** The expression of the shadow module and the conversion of the
    specification agree on every color written as [#] and six hexadecimal
    digits. *)
Lemma hexChannels_rgb_of_hex (hex opacity s : string) :
  rgb_of_hex hex opacity = Some s ->
  template [VString "rgb("; hexChannels (VString hex);
            VString (" / " ++ opacity ++ ")")] = VString s.
Proof.
  destruct hex as [| hash [| r1 [| r2 [| g1 [| g2 [| b1 [| b2 [| ? ?]]]]]]]];
    try discriminate.
  cbn [rgb_of_hex].
  destruct (Ascii.eqb hash "#") eqn:Hhash; [| discriminate].
  apply Ascii.eqb_eq in Hhash. subst hash.
  destruct (pair_value r1 r2) as [r |] eqn:Hr; [| discriminate].
  destruct (pair_value g1 g2) as [g |] eqn:Hg; [| discriminate].
  destruct (pair_value b1 b2) as [b |] eqn:Hb; [| discriminate].
  intros H. injection H as <-.
  assert (Hterm : forall hi lo n, pair_value hi lo = Some n ->
            line_terminator hi || line_terminator lo = false).
  { intros hi lo n. unfold pair_value.
    destruct (hex_digit hi) eqn:Hh; [| discriminate].
    destruct (hex_digit lo) eqn:Hl; [| discriminate]. intros _.
    destruct (hex_digit_char _ _ Hh) as (-> & _).
    destruct (hex_digit_char _ _ Hl) as (-> & _). reflexivity. }
  unfold template, template_string, hexChannels, String_match_pairs.
  cbn [String_replace String.prefix String.length drop append].
  destruct (ascii_dec "#" "#") as [_ | Hne]; [| now elim Hne].
  cbn [String.prefix drop append match_pairs].
  rewrite (Hterm _ _ _ Hr), (Hterm _ _ _ Hg), (Hterm _ _ _ Hb).
  cbn [map]. rewrite (parseInt16_pair _ _ _ Hr), (parseInt16_pair _ _ _ Hg),
    (parseInt16_pair _ _ _ Hb).
  cbn [number_to_string String.concat map to_string]. f_equal.
  rewrite !append_assoc. reflexivity.
Qed.

(** C9 — each derived entry of [shadows.colors] is the [rgb(R G B / opacity)]
    string that channel extraction gives for the color token it is computed
    from; the error shadow color, from [colors.semantic.error.500 = '#ef4444'],
    is ['rgb(239 68 68 / 0.2)']. *)
Theorem shadow_colors_derived :
  Forall (fun '(name, source, opacity) =>
            exists hex s,
              member colors source = VString hex /\
              rgb_of_hex hex opacity = Some s /\
              member shadows ["colors"; name] = VString s)
         derived_shadow_colors /\
  member colors ["semantic"; "error"; "500"] = VString "#ef4444" /\
  member shadows ["colors"; "error"] = VString "rgb(239 68 68 / 0.2)".
Proof.
  split; [| split; vm_compute; reflexivity].
  repeat constructor; do 2 eexists; (split; [| split]); vm_compute; reflexivity.
Qed.

(** ** The resolver *)

Lemma selection_variant (v s : option string) :
  get_property (selection v s) "variant" =
    match v with Some x => VString x | None => VUndefined end.
Proof. destruct v, s; reflexivity. Qed.

Lemma selection_size (v s : option string) :
  get_property (selection v s) "size" =
    match s with Some x => VString x | None => VUndefined end.
Proof. destruct v, s; reflexivity. Qed.

(** The output for a selection: the base classes, the variant fragment and
    the size fragment, separated by single spaces. *)
Lemma getButtonVariants_selection (v s : option string) :
  getButtonVariants tt (selection v s) =
    Normal (baseClasses ++ " " ++ variant_fragment v ++ " " ++ size_fragment s).
Proof.
  unfold getButtonVariants, resolve.
  rewrite selection_variant, selection_size.
  unfold selection. destruct v, s; reflexivity.
Qed.

Lemma split_nonempty (sep : ascii) (s : string) : split sep s <> [].
Proof.
  destruct s as [| c rest]; cbn; [discriminate |].
  destruct (Ascii.eqb c sep); [discriminate |].
  destruct (split sep rest); discriminate.
Qed.

Lemma split_append (sep : ascii) (a b : string) :
  split sep (a ++ String sep b) = (split sep a ++ split sep b)%list.
Proof.
  induction a as [| c a IH]; cbn [append split].
  - now rewrite Ascii.eqb_refl.
  - destruct (Ascii.eqb c sep); rewrite IH; [reflexivity |].
    destruct (split sep a) eqn:Ha; [now elim (split_nonempty sep a) | reflexivity].
Qed.

Lemma class_tokens_append (a b : string) :
  class_tokens (a ++ " " ++ b) = (class_tokens a ++ class_tokens b)%list.
Proof.
  unfold class_tokens. cbn [append].
  now rewrite split_append, filter_app.
Qed.

Lemma prefix_append (a b : string) : String.prefix a (a ++ b) = true.
Proof.
  induction a as [| c a IH]; cbn; [now destruct b |].
  destruct (ascii_dec c c) as [_ | Hne]; [exact IH | now elim Hne].
Qed.

(** An axis value that is neither declared in the table nor an inherited
    name selects the default fragment. *)
Lemma unknown_variant_fragment (x : string) :
  child variantClasses x = None -> object_inherited x = false ->
  variant_fragment (Some x) = variant_fragment None.
Proof.
  intros Hc Hi. unfold variant_fragment, variantClasses in *.
  rewrite (get_property_object _ x Hi).
  cbn [child] in Hc. rewrite Hc. reflexivity.
Qed.

Lemma unknown_size_fragment (x : string) :
  child sizeClasses x = None -> object_inherited x = false ->
  size_fragment (Some x) = size_fragment None.
Proof.
  intros Hc Hi. unfold size_fragment, sizeClasses in *.
  rewrite (get_property_object _ x Hi).
  cbn [child] in Hc. rewrite Hc. reflexivity.
Qed.

(** For every variant value that is not a declared key and not a name
    inherited from [Object.prototype], the output is the output for
    ['primary'] with the same size. *)
Lemma unknown_variant_is_primary (x : string) (s : option string) :
  child variantClasses x = None -> object_inherited x = false ->
  getButtonVariants tt (selection (Some x) s) =
  getButtonVariants tt (selection (Some "primary") s).
Proof.
  intros Hc Hi. rewrite !getButtonVariants_selection.
  now rewrite (unknown_variant_fragment x Hc Hi).
Qed.

(** The two selections of the specification's example. *)
Lemma resolve_examples :
  getButtonVariants tt (selection (Some "secondary") None) =
    Normal (baseClasses ++ " "
              ++ "bg-gray-200 text-gray-900 hover:bg-gray-300 focus:ring-gray-500"
              ++ " " ++ "h-10 px-4 text-base") /\
  getButtonVariants tt (selection (Some "nope") (Some "lg")) =
    Normal (baseClasses ++ " "
              ++ "bg-blue-600 text-white hover:bg-blue-700 focus:ring-blue-500"
              ++ " " ++ "h-12 px-6 text-lg").
Proof. split; vm_compute; reflexivity. Qed.

(** C1 — a variant that is not an allowed value must resolve to the
    default, ['primary'].  ['constructor'] is not a key of [variantClasses],
    yet [variantClasses['constructor']] reads [Object] from the prototype;
    that function is truthy, so the [||] fallback is skipped and the text of
    the function is interpolated where the primary fragment should be. *)
Theorem resolve_inherited_variant :
  child variantClasses "constructor" = None /\
  getButtonVariants tt (selection (Some "constructor") None) =
    Normal (baseClasses ++ " " ++ native_function_source "Object"
              ++ " " ++ "h-10 px-4 text-base") /\
  getButtonVariants tt (selection (Some "constructor") None) <>
    Normal (baseClasses ++ " "
              ++ "bg-blue-600 text-white hover:bg-blue-700 focus:ring-blue-500"
              ++ " " ++ "h-10 px-4 text-base").
Proof.
  split; [reflexivity | split; [vm_compute; reflexivity |]].
  vm_compute. discriminate.
Qed.

(** The resolver does raise when it is given no selection at all: the
    parameter destructuring throws. *)
Lemma resolve_without_selection :
  getButtonVariants tt VUndefined = Throw TypeError /\
  getButtonVariants tt VNull = Throw TypeError.
Proof. split; reflexivity. Qed.

(** C4 — for every selection mapping whose values are strings, the empty
    one included and whatever axes it names, the resolver completes
    normally with a class string that starts with the base classes; and
    whatever the three tables of string fragments are, even tables that
    lack the default entries, the body of the resolver completes normally,
    so no table makes a call throw. *)
Theorem resolver_never_throws (sel : list (string * string)) :
  (exists out, getButtonVariants tt (string_table sel) = Normal out /\
               String.prefix baseClasses out = true) /\
  (forall base variants sizes,
      exists out,
        resolve base (string_table variants) (string_table sizes)
                (string_table sel) = Normal out).
Proof.
  split.
  - eexists. split; [reflexivity |].
    unfold template_string. cbn [map String.concat to_string].
    apply prefix_append.
  - intros. eexists. reflexivity.
Qed.

(** C5 — for every selection the output is the base classes, then the
    variant fragment, then the size fragment: its class tokens are those of
    the base, followed by those of the variant fragment, followed by those
    of the size fragment. *)
Theorem fragments_in_declared_order (v s : option string) :
  exists out,
    getButtonVariants tt (selection v s) = Normal out /\
    out = baseClasses ++ " " ++ variant_fragment v ++ " " ++ size_fragment s /\
    class_tokens out =
      (class_tokens baseClasses ++ class_tokens (variant_fragment v)
         ++ class_tokens (size_fragment s))%list.
Proof.
  eexists. split; [apply getButtonVariants_selection |].
  split; [reflexivity |].
  now rewrite !class_tokens_append.
Qed.

(** *** Duplicates *)

(** C6, as stated, fails: nothing removes duplicates.  With a table whose
    variant and size fragments share a token the resolver's output repeats
    it, and a [className] that repeats a token of the resolved classes is
    appended as it is by [cn]. *)
Lemma concatenation_keeps_duplicates :
  resolve "inline-flex" padded_variants padded_sizes (selection None None) =
    Normal "inline-flex p-2 bg-blue-600 p-2 h-10" /\
  has_duplicate (class_tokens "inline-flex p-2 bg-blue-600 p-2 h-10") = true /\
  (exists out,
     getButtonVariants tt (selection None None) = Normal out /\
     Button_className (VObject [("className", VString "px-4")]) =
       Normal (out ++ " px-4") /\
     has_duplicate (class_tokens (out ++ " px-4")) = true).
Proof.
  split; [reflexivity | split; [reflexivity |]].
  eexists. split; [reflexivity |]. split; vm_compute; reflexivity.
Qed.

Lemma variant_fragment_cases (v : option string) :
  ordinary v = true ->
  In (variant_fragment v)
     ["bg-blue-600 text-white hover:bg-blue-700 focus:ring-blue-500";
      "bg-gray-200 text-gray-900 hover:bg-gray-300 focus:ring-gray-500";
      "border border-gray-300 bg-transparent hover:bg-gray-50 focus:ring-gray-500";
      "bg-transparent hover:bg-gray-100 focus:ring-gray-500"].
Proof.
  destruct v as [x |]; cbn [ordinary]; intros H; [| vm_compute; auto].
  apply negb_true_iff in H.
  unfold variant_fragment, variantClasses.
  rewrite (get_property_object _ x H). cbn [assoc].
  destruct ("primary" =? x); [cbn; auto |].
  destruct ("secondary" =? x); [cbn; auto |].
  destruct ("outline" =? x); [cbn; auto |].
  destruct ("ghost" =? x); cbn; auto.
Qed.

Lemma size_fragment_cases (s : option string) :
  ordinary s = true ->
  In (size_fragment s)
     ["h-8 px-3 text-sm"; "h-10 px-4 text-base"; "h-12 px-6 text-lg"].
Proof.
  destruct s as [x |]; cbn [ordinary]; intros H; [| vm_compute; auto].
  apply negb_true_iff in H.
  unfold size_fragment, sizeClasses.
  rewrite (get_property_object _ x H). cbn [assoc].
  destruct ("sm" =? x); [cbn; auto |].
  destruct ("md" =? x); [cbn; auto |].
  destruct ("lg" =? x); cbn; auto.
Qed.

(** C6 (amended) — the resolver concatenates its fragments without
    removing anything; the base, variant and size fragments of the button
    table share no token, so for every selection whose values are absent or
    are not names inherited from [Object.prototype] the output has no
    duplicate class token. *)
Theorem button_classes_distinct (v s : option string) :
  ordinary v = true -> ordinary s = true ->
  exists out,
    getButtonVariants tt (selection v s) = Normal out /\
    out = baseClasses ++ " " ++ variant_fragment v ++ " " ++ size_fragment s /\
    has_duplicate (class_tokens out) = false.
Proof.
  intros Hv Hs. eexists.
  split; [apply getButtonVariants_selection |]. split; [reflexivity |].
  pose proof (variant_fragment_cases v Hv) as Ev.
  pose proof (size_fragment_cases s Hs) as Es.
  cbn [In] in Ev, Es.
  repeat match goal with
         | H : _ \/ _ |- _ => destruct H as [H | H]
         | H : False |- _ => destruct H
         end;
    rewrite <- Ev, <- Es; vm_compute; reflexivity.
Qed.

Lemma button_classes_distinct_witness :
  ordinary (Some "secondary") = true /\ ordinary None = true /\
  exists out,
    getButtonVariants tt (selection (Some "secondary") None) = Normal out /\
    out = baseClasses ++ " " ++ variant_fragment (Some "secondary") ++ " "
            ++ size_fragment None /\
    has_duplicate (class_tokens out) = false.
Proof.
  split; [reflexivity | split; [reflexivity |]].
  exact (button_classes_distinct (Some "secondary") None eq_refl eq_refl).
Defined.

Lemma append_inv_head (a b c : string) : a ++ b = a ++ c -> b = c.
Proof.
  induction a as [| x a IH]; cbn; [auto |].
  intros H. injection H as H. auto.
Qed.

(** C10 — a variant that is not one of the four keys must give the output
    of ['primary'].  ['destructive'] does; ['constructor'], which is not a
    key either, does not: the lookup reads [Object] from the prototype and
    its text replaces the primary fragment, whatever the size. *)
Theorem destructive_and_inherited_variants (s : option string) :
  getButtonVariants tt (selection (Some "destructive") s) =
    getButtonVariants tt (selection (Some "primary") s) /\
  child variantClasses "constructor" = None /\
  getButtonVariants tt (selection (Some "constructor") s) <>
    getButtonVariants tt (selection (Some "primary") s).
Proof.
  split; [apply unknown_variant_is_primary; reflexivity |].
  split; [reflexivity |].
  rewrite !getButtonVariants_selection. intros H.
  apply (f_equal (fun c => match c with Normal out => out | Throw _ => EmptyString end)) in H.
  cbv beta iota in H. apply append_inv_head in H.
  change (variant_fragment (Some "constructor"))
    with (native_function_source "Object") in H.
  change (variant_fragment (Some "primary"))
    with "bg-blue-600 text-white hover:bg-blue-700 focus:ring-blue-500" in H.
  cbn in H. discriminate H.
Qed.

(** ** Further properties of the getters *)

(** X1 — on a path none of whose segments is an inherited name, every
    getter does what following the children of its tree does: the
    not-found error when a segment names no child, otherwise the value
    reached, which the getters that check a type return only when it has
    that type. *)
Theorem getter_follows_children (c : category) (path : string) :
  (forall k, In k (split "." path) -> inherited k = false) ->
  getter c path =
    match descend (tree c) (split "." path) with
    | None => Throw (Error (not_found (label c) path))
    | Some v =>
        match leaf_type c with
        | Some ty =>
            if typeof v =? ty then Normal v
            else Throw (Error (not_resolved (label c) path ty))
        | None => Normal v
        end
    end.
Proof.
  intros Hk. rewrite getter_unfold. unfold lookup.
  destruct (descend (tree c) (split "." path)) as [v |] eqn:Hd.
  - rewrite (walk_descend_some _ _ _ _ Hd). cbn [bind].
    destruct (leaf_type c) as [ty |]; [| reflexivity].
    destruct (typeof v =? ty); reflexivity.
  - now rewrite (walk_descend_none _ _ _ Hk Hd).
Qed.

Lemma getter_follows_children_witness :
  (forall k, In k (split "." "semantic.error.500") -> inherited k = false) /\
  getter Colors "semantic.error.500" = Normal (VString "#ef4444").
Proof.
  assert (H : forall k, In k (split "." "semantic.error.500") -> inherited k = false).
  { intros k [<- | [<- | [<- | []]]]; reflexivity. }
  split; [exact H |].
  exact (getter_follows_children Colors "semantic.error.500" H).
Defined.

Lemma contains_append (c : ascii) (a b : string) :
  contains c (a ++ b) = contains c a || contains c b.
Proof.
  unfold contains. induction a as [| x a IH]; cbn; [reflexivity |].
  now rewrite IH, orb_assoc.
Qed.

Lemma split_without_separator (sep : ascii) (s : string) :
  contains sep s = false -> split sep s = [s].
Proof.
  unfold contains. induction s as [| c s IH]; cbn; [reflexivity |].
  intros H. apply orb_false_iff in H. destruct H as [Hc Hs].
  rewrite Ascii.eqb_sym, Hc, (IH Hs). reflexivity.
Qed.

(** Joining segments that contain no dot and splitting again gives the
    segments back. *)
Lemma split_concat (keys : list string) :
  keys <> [] ->
  Forall (fun k => contains "." k = false) keys ->
  split "." (String.concat "." keys) = keys.
Proof.
  induction keys as [| k rest IH]; [now intros H |].
  intros _ Hall. inversion Hall as [| ? ? Hk Hrest]; subst.
  destruct rest as [| k' rest'].
  - cbn. now apply split_without_separator.
  - cbn [String.concat]. cbn [append].
    rewrite split_append, (split_without_separator _ _ Hk).
    cbn [app]. f_equal. apply IH; [discriminate | exact Hrest].
Qed.

Lemma digits_avoid_dot (d : Decimal.uint) :
  contains "." (NilEmpty.string_of_uint d) = false.
Proof. induction d; cbn; auto. Qed.

Lemma string_of_nat_avoids_dot (n : nat) : contains "." (string_of_nat n) = false.
Proof.
  unfold string_of_nat, NilZero.string_of_uint.
  destruct (Nat.to_uint n) eqn:E; try reflexivity; rewrite <- E; apply digits_avoid_dot.
Qed.

Lemma assoc_in (key : string) (props : list (string * value)) (x : value) :
  assoc key props = Some x -> In (key, x) props.
Proof.
  induction props as [| [k v] rest IH]; cbn; [discriminate |].
  destruct (k =? key) eqn:E.
  - apply String.eqb_eq in E. intros H. injection H as ->. subst. now left.
  - intros H. right. auto.
Qed.

(** The segments that lead to a node of a tree whose keys contain no dot
    contain no dot. *)
Lemma descend_avoids_dot (keys : list string) :
  forall v x,
    keys_avoid "." v = true -> descend v keys = Some x ->
    Forall (fun k => contains "." k = false) keys.
Proof.
  induction keys as [| key rest IH]; intros v x Hv; cbn [descend]; [constructor |].
  destruct (child v key) as [y |] eqn:Hc; [| discriminate].
  intros Hd.
  destruct v; cbn [child] in Hc; try discriminate.
  - apply assoc_in in Hc. cbn [keys_avoid] in Hv.
    rewrite forallb_forall in Hv. specialize (Hv _ Hc). cbn in Hv.
    apply andb_true_iff in Hv. destruct Hv as [Hkey Hy].
    constructor; [now apply negb_true_iff in Hkey | exact (IH _ _ Hy Hd)].
  - unfold array_index in Hc.
    destruct (find _ _) as [i |] eqn:Hf; [| discriminate].
    apply find_some in Hf. destruct Hf as [_ Hf]. apply String.eqb_eq in Hf.
    cbn [keys_avoid] in Hv. rewrite forallb_forall in Hv.
    constructor.
    + subst key. apply string_of_nat_avoids_dot.
    + apply (IH y x); [apply Hv; eapply nth_error_In; exact Hc | exact Hd].
Qed.

Lemma trees_avoid_dot (c : category) : keys_avoid "." (tree c) = true.
Proof. destruct c; vm_compute; reflexivity. Qed.

(** X2 — every node of every token tree is found by its getter under its
    dotted path: if the segments [keys] lead from the root to [v], the
    getter called with the segments joined by dots reaches [v], and returns
    it unless it checks for a type [v] does not have. *)
Theorem declared_path_is_found (c : category) (keys : list string) (v : value) :
  keys <> [] ->
  descend (tree c) keys = Some v ->
  getter c (String.concat "." keys) =
    match leaf_type c with
    | Some ty =>
        if typeof v =? ty then Normal v
        else Throw (Error (not_resolved (label c) (String.concat "." keys) ty))
    | None => Normal v
    end.
Proof.
  intros Hne Hd. rewrite getter_unfold. unfold lookup.
  rewrite (split_concat keys Hne (descend_avoids_dot _ _ _ (trees_avoid_dot c) Hd)).
  rewrite (walk_descend_some _ _ _ _ Hd). cbn [bind].
  destruct (leaf_type c) as [ty |]; [| reflexivity].
  destruct (typeof v =? ty); reflexivity.
Qed.

Lemma declared_path_is_found_witness :
  ["navigation"; "mobileMenu"] <> [] /\
  descend (tree ZIndex) ["navigation"; "mobileMenu"] = Some (VNumber 20) /\
  getter ZIndex "navigation.mobileMenu" = Normal (VNumber 20).
Proof.
  assert (H : ["navigation"; "mobileMenu"] <> []) by discriminate.
  split; [exact H | split; [reflexivity |]].
  exact (declared_path_is_found ZIndex ["navigation"; "mobileMenu"] _ H eq_refl).
Defined.

(** *** What the getters can return *)

Lemma assoc_forallb (Q : value -> bool) (key : string)
    (props : list (string * value)) (x : value) :
  forallb (fun kv => Q (snd kv)) props = true ->
  assoc key props = Some x -> Q x = true.
Proof.
  intros Hall Ha. apply assoc_in in Ha.
  rewrite forallb_forall in Hall. exact (Hall _ Ha).
Qed.

Lemma reaches_object_method (P : value -> bool) (key : string) (x : value) :
  assoc key object_prototype_methods = Some x -> reaches P x = true.
Proof. now apply (assoc_forallb (reaches P)). Qed.

Lemma reaches_array_method (P : value -> bool) (key : string) (x : value) :
  assoc key array_prototype_methods = Some x -> reaches P x = true.
Proof. now apply (assoc_forallb (reaches P)). Qed.

Lemma find_property_reaches (P : value -> bool) (v : value) (key : string) (x : value) :
  reaches P v = true ->
  find_property (prototype_chain v) key = Some x ->
  reaches P x = true.
Proof.
  intros Hv.
  destruct v; cbn [prototype_chain find_property own_property]; try discriminate.
  - cbn [reaches] in Hv.
    destruct (assoc key props) as [y |] eqn:Ha.
    { intros H. injection H as <-. exact (assoc_forallb (reaches P) _ _ _ Hv Ha). }
    destruct (assoc key object_prototype_methods) as [y |] eqn:Hm; [| discriminate].
    intros H. injection H as <-. exact (reaches_object_method P _ _ Hm).
  - cbn [reaches] in Hv. apply andb_true_iff in Hv. destruct Hv as [Hv Hel].
    apply andb_true_iff in Hv. destruct Hv as [Hlen Hzero].
    destruct (key =? "length").
    { intros H. injection H as <-. exact Hlen. }
    destruct (match array_index key (length elems) with
              | Some i => nth_error elems i
              | None => None
              end) as [y |] eqn:Hy.
    { intros H. injection H as <-.
      destruct (array_index key (length elems)) as [i |]; [| discriminate].
      rewrite forallb_forall in Hel. apply Hel. eapply nth_error_In; exact Hy. }
    destruct (assoc key array_prototype_methods) as [y |] eqn:Hm.
    { intros H. injection H as <-. exact (reaches_array_method P _ _ Hm). }
    destruct (assoc key object_prototype_methods) as [y |] eqn:Ho; [| discriminate].
    intros H. injection H as <-. exact (reaches_object_method P _ _ Ho).
  - destruct (assoc key object_prototype_methods) as [y |] eqn:Hm; [| discriminate].
    intros H. injection H as <-. exact (reaches_object_method P _ _ Hm).
  - cbn [reaches] in Hv.
    destruct (key =? "length").
    { intros H. injection H as <-. exact Hv. }
    destruct (assoc key array_prototype_methods) as [y |] eqn:Hm.
    { intros H. injection H as <-. exact (reaches_array_method P _ _ Hm). }
    destruct (assoc key object_prototype_methods) as [y |] eqn:Ho; [| discriminate].
    intros H. injection H as <-. exact (reaches_object_method P _ _ Ho).
Qed.

(** One property read keeps the walk inside what [reaches] covers. *)
Lemma reaches_step (P : value -> bool) (v : value) (key : string) :
  reaches P v = true -> has_property v key = true ->
  reaches P (get_property v key) = true.
Proof.
  intros Hv. unfold has_property, get_property.
  destruct (find_property (prototype_chain v) key) as [x |] eqn:Hf.
  - intros _. exact (find_property_reaches P v key x Hv Hf).
  - intros Hh. rewrite Hh.
    destruct v; try discriminate Hh; try reflexivity.
    cbn [reaches] in Hv. apply andb_true_iff in Hv. destruct Hv as [Hv _].
    apply andb_true_iff in Hv. destruct Hv as [_ Hzero]. exact Hzero.
Qed.

Lemma walk_reaches (P : value -> bool) (msg : string) (keys : list string) :
  forall v x,
    reaches P v = true -> walk msg v keys = Normal x -> reaches P x = true.
Proof.
  induction keys as [| key rest IH]; intros v x Hv; cbn [walk].
  - intros H. injection H as <-. exact Hv.
  - destruct (truthy v && (typeof v =? "object") && has_property v key) eqn:E;
      [| discriminate].
    apply andb_true_iff in E. destruct E as [_ Hh].
    apply IH. now apply reaches_step.
Qed.

(** What a getter returns was reached by its walk. *)
Lemma getter_walk (c : category) (path : string) (v : value) :
  getter c path = Normal v ->
  walk (not_found (label c) path) (tree c) (split "." path) = Normal v.
Proof.
  rewrite getter_unfold. unfold lookup.
  destruct (walk _ _ _) as [x | e]; cbn [bind]; [| discriminate].
  destruct (leaf_type c) as [ty |].
  - destruct (negb (typeof x =? ty)); [discriminate | auto].
  - auto.
Qed.

(** X3 — no getter ever returns [undefined], whatever the path. *)
Theorem getters_never_return_undefined (c : category) (path : string) :
  getter c path <> Normal VUndefined.
Proof.
  intros H. apply getter_walk in H.
  apply (walk_reaches (fun v => negb (is_undefined v))) in H; [discriminate H |].
  destruct c; vm_compute; reflexivity.
Qed.

(** X4 — whatever [getZIndex] returns is a number that [validateZIndex]
    accepts. *)
Theorem getZIndex_is_valid (path : string) (v : value) :
  getZIndex path = Normal v ->
  exists n, v = VNumber n /\ zIndexUtils.validateZIndex n = true.
Proof.
  intros H.
  assert (Ht : typeof v = "number").
  { unfold getZIndex, lookup in H.
    destruct (walk _ _ _) as [x | e]; cbn [bind] in H; [| discriminate].
    destruct (typeof x =? "number") eqn:E; cbn [negb] in H; [| discriminate].
    injection H as <-. now apply String.eqb_eq. }
  apply (getter_walk ZIndex) in H.
  apply (walk_reaches
           (fun v => match v with
                     | VNumber n => zIndexUtils.validateZIndex n
                     | _ => true
                     end)) in H; [| vm_compute; reflexivity].
  destruct v; try discriminate Ht. exists n. split; [reflexivity | exact H].
Qed.

Lemma getZIndex_is_valid_witness :
  getZIndex "maximum.emergency" = Normal (VNumber 10000) /\
  exists n, VNumber 10000 = VNumber n /\ zIndexUtils.validateZIndex n = true.
Proof.
  split; [reflexivity |].
  exact (getZIndex_is_valid "maximum.emergency" (VNumber 10000) eq_refl).
Defined.

Lemma hex_color_rgb (s opacity : string) :
  hex_color s = true -> exists rgb, rgb_of_hex s opacity = Some rgb.
Proof.
  unfold hex_color.
  destruct s as [| hash [| r1 [| r2 [| g1 [| g2 [| b1 [| b2 [| ? ?]]]]]]]];
    try discriminate.
  cbn [rgb_of_hex].
  destruct (Ascii.eqb hash "#"); [| discriminate].
  destruct (pair_value r1 r2); [| discriminate].
  destruct (pair_value g1 g2); [| discriminate].
  destruct (pair_value b1 b2); [| discriminate].
  intros _. eexists. reflexivity.
Qed.

(** X5 — whatever [getColor] returns is [#] followed by six hexadecimal
    digits, so the channel extraction of the shadow module is defined on
    it: interpolated into [rgb(... / opacity)] it gives the string of the
    conversion as the specification words it. *)
Theorem getColor_is_hex (path : string) (v : value) :
  getColor path = Normal v ->
  exists s, v = VString s /\
    forall opacity, exists rgb,
      rgb_of_hex s opacity = Some rgb /\
      template [VString "rgb("; hexChannels (VString s);
                VString (" / " ++ opacity ++ ")")] = VString rgb.
Proof.
  intros H.
  assert (Ht : typeof v = "string").
  { unfold getColor, lookup in H.
    destruct (walk _ _ _) as [x | e]; cbn [bind] in H; [| discriminate].
    destruct (typeof x =? "string") eqn:E; cbn [negb] in H; [| discriminate].
    injection H as <-. now apply String.eqb_eq. }
  apply (getter_walk Colors) in H.
  apply (walk_reaches
           (fun v => match v with
                     | VString s => hex_color s
                     | _ => true
                     end)) in H; [| vm_compute; reflexivity].
  destruct v; try discriminate Ht. exists s. split; [reflexivity |].
  intros opacity. destruct (hex_color_rgb s opacity H) as [rgb Hrgb].
  exists rgb. split; [exact Hrgb | now apply hexChannels_rgb_of_hex].
Qed.

Lemma getColor_is_hex_witness :
  getColor "secondary.200" = Normal (VString "#e2e8f0") /\
  exists s, VString "#e2e8f0" = VString s /\
    forall opacity, exists rgb,
      rgb_of_hex s opacity = Some rgb /\
      template [VString "rgb("; hexChannels (VString s);
                VString (" / " ++ opacity ++ ")")] = VString rgb.
Proof.
  split; [reflexivity |].
  exact (getColor_is_hex "secondary.200" (VString "#e2e8f0") eq_refl).
Defined.

(** ** zIndexUtils *)

Lemma has_property_object (props : list (string * value)) (key : string) :
  object_inherited key = false ->
  has_property (VObject props) key =
    match assoc key props with Some _ => true | None => false end.
Proof.
  intros H. destruct (object_inherited_false key H) as [Hp Hm].
  unfold has_property. cbn [prototype_chain find_property own_property is_object].
  destruct (assoc key props); [reflexivity |].
  rewrite Hm, Hp. reflexivity.
Qed.

(** X6 — [toTailwindClass] writes the plain class [z-N] exactly for the
    values [isTailwindZIndex] accepts, and the arbitrary-value class [z-[N]]
    for every other integer; its twelve special cases agree with that
    rule. *)
Theorem toTailwindClass_form (value : Z) :
  safe_integer value = true ->
  zIndexUtils.toTailwindClass value =
    if zIndexUtils.isTailwindZIndex value then "z-" ++ string_of_Z value
    else "z-[" ++ string_of_Z value ++ "]".
Proof.
  intros _. unfold zIndexUtils.toTailwindClass, zIndexUtils.isTailwindZIndex.
  cbn [existsb].
  repeat match goal with
         | |- context [(value =? ?k)%Z] =>
             destruct (Z.eqb_spec value k); [subst value; reflexivity |]
         end.
  reflexivity.
Qed.

Lemma toTailwindClass_form_witness :
  safe_integer 15 = true /\
  zIndexUtils.toTailwindClass 15 = "z-[15]".
Proof.
  split; [reflexivity |].
  exact (toTailwindClass_form 15 eq_refl).
Defined.

Lemma string_of_Z_injective (a b : Z) : string_of_Z a = string_of_Z b -> a = b.
Proof.
  unfold string_of_Z. intros H.
  assert (Hn : forall z, Z.to_int z <> Decimal.Pos Decimal.Nil /\
                         Z.to_int z <> Decimal.Neg Decimal.Nil).
  { intros [| p | p]; cbn; split; try discriminate;
      intros E; injection E as E; exact (DecimalPos.Unsigned.to_uint_nonnil p E). }
  apply (f_equal NilZero.int_of_string) in H.
  rewrite !NilZero.isi in H by apply Hn.
  injection H as H. apply (f_equal Z.of_int) in H.
  now rewrite !DecimalZ.of_to in H.
Qed.

Lemma length_append (a b : string) :
  String.length (a ++ b) = String.length a + String.length b.
Proof. induction a as [| x a IH]; cbn; [reflexivity | now rewrite IH]. Qed.

Lemma append_inv_tail (a b c : string) : a ++ c = b ++ c -> a = b.
Proof.
  revert b. induction a as [| x a IH]; intros [| y b]; cbn; intros H.
  - reflexivity.
  - apply (f_equal String.length) in H. cbn in H.
    rewrite length_append in H. lia.
  - apply (f_equal String.length) in H. cbn in H.
    rewrite length_append in H. lia.
  - injection H as -> H. f_equal. auto.
Qed.

(** X7 — distinct integers get distinct classes from [toTailwindClass]. *)
Theorem toTailwindClass_injective (a b : Z) :
  safe_integer a = true -> safe_integer b = true ->
  zIndexUtils.toTailwindClass a = zIndexUtils.toTailwindClass b -> a = b.
Proof.
  intros Ha Hb.
  rewrite (toTailwindClass_form a Ha), (toTailwindClass_form b Hb).
  assert (Htw : forall v, zIndexUtils.isTailwindZIndex v = true ->
                  forall s, "z-" ++ string_of_Z v <> "z-[" ++ s).
  { intros v Hv s. unfold zIndexUtils.isTailwindZIndex in Hv. cbn [existsb] in Hv.
    repeat match type of Hv with
           | ((v =? ?k)%Z || _) = true =>
               destruct (Z.eqb_spec v k); [subst v; discriminate | cbn [orb] in Hv]
           end.
    discriminate Hv. }
  destruct (zIndexUtils.isTailwindZIndex a) eqn:Ea,
           (zIndexUtils.isTailwindZIndex b) eqn:Eb; intros H.
  - apply string_of_Z_injective. now injection H.
  - now elim (Htw a Ea _ H).
  - symmetry in H. now elim (Htw b Eb _ H).
  - apply string_of_Z_injective. cbn [append] in H. injection H as H.
    exact (append_inv_tail _ _ _ H).
Qed.

Lemma toTailwindClass_injective_witness :
  safe_integer 10 = true /\ safe_integer 10 = true /\
  zIndexUtils.toTailwindClass 10 = zIndexUtils.toTailwindClass 10 /\
  (10 = 10)%Z.
Proof.
  split; [reflexivity | split; [reflexivity | split; [reflexivity |]]].
  exact (toTailwindClass_injective 10 10 eq_refl eq_refl eq_refl).
Defined.

Lemma zIndex_components (c : zIndexUtils.component) :
  exists props,
    get_property (member zIndex ["components"]) (zIndexUtils.component_key c) =
      VObject props /\
    forallb (fun kv => match snd kv with
                       | VNumber n => zIndexUtils.validateZIndex n
                       | _ => false
                       end) props = true.
Proof. destruct c; eexists; split; vm_compute; reflexivity. Qed.

(** X8 — for every component and every variant that is not a name
    inherited from [Object.prototype], [getComponent] returns the variant's
    z-index, a number [validateZIndex] accepts, when the component declares
    the variant, and the component's whole object when it does not. *)
Theorem getComponent_variant_or_whole (c : zIndexUtils.component) (variant : string) :
  object_inherited variant = false ->
  let whole := get_property (member zIndex ["components"]) (zIndexUtils.component_key c) in
  match child whole variant with
  | Some x =>
      zIndexUtils.getComponent c (Some variant) = x /\
      exists n, x = VNumber n /\ zIndexUtils.validateZIndex n = true
  | None =>
      zIndexUtils.getComponent c (Some variant) = whole /\ interior whole = true
  end.
Proof.
  intros Hi whole. unfold zIndexUtils.getComponent. fold whole.
  destruct (zIndex_components c) as (props & Hw & Hall).
  unfold whole. rewrite Hw. cbn [typeof child interior].
  rewrite (has_property_object props variant Hi), (get_property_object props variant Hi).
  destruct (assoc variant props) as [x |] eqn:Ha; cbn; [| auto].
  split; [reflexivity |].
  pose proof (assoc_forallb
                (fun v => match v with
                          | VNumber n => zIndexUtils.validateZIndex n
                          | _ => false
                          end) _ _ _ Hall Ha) as Hx. cbn beta in Hx.
  destruct x; try discriminate Hx. eauto.
Qed.

Lemma getComponent_variant_or_whole_witness :
  object_inherited "overlay" = false /\
  zIndexUtils.getComponent zIndexUtils.form (Some "overlay") = VNumber 50 /\
  exists n, VNumber 50 = VNumber n /\ zIndexUtils.validateZIndex n = true.
Proof.
  split; [reflexivity |].
  exact (getComponent_variant_or_whole zIndexUtils.form "overlay" eq_refl).
Defined.

(** X9 — only [card] declares the variant ['default'] that [getComponent]
    uses when none is given: for every other component, [getComponent]
    called with the component alone returns the component's whole object,
    not a number. *)
Theorem getComponent_without_variant (c : zIndexUtils.component) :
  c <> zIndexUtils.card ->
  zIndexUtils.getComponent c None =
    get_property (member zIndex ["components"]) (zIndexUtils.component_key c) /\
  interior (zIndexUtils.getComponent c None) = true.
Proof.
  destruct c; intros H; [now elim H | | | | |]; split; vm_compute; reflexivity.
Qed.

Lemma getComponent_without_variant_witness :
  zIndexUtils.modal <> zIndexUtils.card /\
  zIndexUtils.getComponent zIndexUtils.modal None =
    VObject [("backdrop", VNumber 40); ("dialog", VNumber 50); ("loading", VNumber 50)] /\
  interior (zIndexUtils.getComponent zIndexUtils.modal None) = true.
Proof.
  assert (H : zIndexUtils.modal <> zIndexUtils.card) by discriminate.
  split; [exact H |].
  exact (getComponent_without_variant zIndexUtils.modal H).
Defined.

(** ** shadowUtils.combineShadows *)

Lemma concat_app (sep : string) (a b : list string) :
  a <> [] -> b <> [] ->
  String.concat sep (a ++ b) = String.concat sep a ++ sep ++ String.concat sep b.
Proof.
  induction a as [| x a IH]; [now intros H |]. intros _ Hb.
  destruct a as [| y a].
  - cbn [app]. destruct b as [| z b]; [now elim Hb | reflexivity].
  - change (String.concat sep ((x :: y :: a) ++ b))
      with (x ++ sep ++ String.concat sep ((y :: a) ++ b)).
    rewrite IH by (discriminate || exact Hb).
    change (String.concat sep (x :: y :: a))
      with (x ++ sep ++ String.concat sep (y :: a)).
    now rewrite !append_assoc.
Qed.

Lemma filter_all (A : Type) (f : A -> bool) (l : list A) :
  Forall (fun x => f x = true) (filter f l).
Proof.
  apply Forall_forall. intros x Hx. apply filter_In in Hx. tauto.
Qed.

(** Joining at least one kept shadow gives a string that would itself be
    kept: it is neither empty nor ['none']. *)
Lemma joined_shadows_kept (l : list string) :
  l <> [] ->
  Forall (fun s => negb (s =? EmptyString) && negb (s =? "none") = true) l ->
  negb (String.concat ", " l =? EmptyString) && negb (String.concat ", " l =? "none") = true.
Proof.
  destruct l as [| x [| y r]]; [now intros H | |]; intros _ Hall;
    inversion Hall as [| ? ? Hx _]; subst; [exact Hx |].
  change (String.concat ", " (x :: y :: r))
    with (x ++ ", " ++ String.concat ", " (y :: r)).
  apply andb_true_iff in Hx. destruct Hx as [Hx _].
  apply andb_true_iff. split.
  - destruct x; [discriminate Hx | reflexivity].
  - apply negb_true_iff. apply String.eqb_neq. intros E.
    apply (f_equal (contains ",")) in E.
    rewrite contains_append in E. cbn in E. rewrite orb_true_r in E. discriminate E.
Qed.

(** X10 — combining combined shadows is combining all of them: nesting
    calls of [combineShadows] gives the same string as one call on the
    concatenated arguments. *)
Theorem combineShadows_flattens (l1 l2 : list string) :
  shadowUtils.combineShadows
    [shadowUtils.combineShadows l1; shadowUtils.combineShadows l2] =
  shadowUtils.combineShadows (l1 ++ l2).
Proof.
  unfold shadowUtils.combineShadows. rewrite filter_app.
  set (keep := fun shadow : string =>
                 negb (shadow =? EmptyString) && negb (shadow =? "none")).
  pose proof (filter_all _ keep l1) as H1.
  pose proof (filter_all _ keep l2) as H2.
  destruct (filter keep l1) as [| x k1] eqn:E1, (filter keep l2) as [| y k2] eqn:E2.
  - reflexivity.
  - assert (K : keep (String.concat ", " (y :: k2)) = true)
      by (apply joined_shadows_kept; [discriminate | exact H2]).
    cbn [filter app]. change (keep (String.concat ", " [])) with false.
    cbn iota. rewrite K. reflexivity.
  - assert (K : keep (String.concat ", " (x :: k1)) = true)
      by (apply joined_shadows_kept; [discriminate | exact H1]).
    cbn [filter]. change (keep (String.concat ", " [])) with false.
    cbn iota. rewrite K, app_nil_r. reflexivity.
  - assert (K1 : keep (String.concat ", " (x :: k1)) = true)
      by (apply joined_shadows_kept; [discriminate | exact H1]).
    assert (K2 : keep (String.concat ", " (y :: k2)) = true)
      by (apply joined_shadows_kept; [discriminate | exact H2]).
    cbn [filter]. rewrite K1, K2.
    rewrite concat_app by discriminate. reflexivity.
Qed.

(** X11 — [combineShadows] returns the empty string exactly when every
    argument is empty or ['none']; in particular combining only ['none']
    gives [''], not ['none']. *)
Theorem combineShadows_empty (l : list string) :
  shadowUtils.combineShadows l = EmptyString <->
  Forall (fun s => s = EmptyString \/ s = "none") l.
Proof.
  unfold shadowUtils.combineShadows.
  set (keep := fun shadow : string =>
                 negb (shadow =? EmptyString) && negb (shadow =? "none")).
  split.
  - intros H.
    assert (E : filter keep l = []).
    { destruct (filter keep l) as [| x k] eqn:E; [reflexivity |].
      pose proof (filter_all _ keep l) as Hall. rewrite E in Hall.
      pose proof (joined_shadows_kept (x :: k) ltac:(discriminate) Hall) as K.
      rewrite H in K. discriminate K. }
    apply Forall_forall. intros s Hs.
    destruct (keep s) eqn:Ks.
    + assert (Hin : In s (filter keep l)) by (apply filter_In; auto).
      rewrite E in Hin. destruct Hin.
    + unfold keep in Ks. apply andb_false_iff in Ks.
      destruct Ks as [Ks | Ks]; apply negb_false_iff, String.eqb_eq in Ks; auto.
  - intros Hall.
    assert (E : filter keep l = []).
    { induction Hall as [| s r Hs _ IH]; [reflexivity |].
      cbn [filter]. destruct Hs as [-> | ->]; exact IH. }
    now rewrite E.
Qed.

(** ** cn and the Button *)

Lemma class_tokens_concat (ss : list string) :
  class_tokens (String.concat " " ss) = flat_map class_tokens ss.
Proof.
  induction ss as [| x [| y r] IH]; [reflexivity | |].
  - cbn [String.concat flat_map]. now rewrite app_nil_r.
  - change (String.concat " " (x :: y :: r))
      with (x ++ " " ++ String.concat " " (y :: r)).
    rewrite class_tokens_append, IH. reflexivity.
Qed.

(** X12 — for string, [undefined] and [null] arguments, the class tokens
    of [cn(...classes)] are the class tokens of its non-empty string
    arguments, in order: joining loses none, merges none and adds none. *)
Theorem cn_keeps_tokens (classes : list value) :
  forallb class_argument classes = true ->
  class_tokens (cn classes) =
  flat_map (fun v => match v with
                     | VString s => class_tokens s
                     | _ => []
                     end) classes.
Proof.
  intros Hargs. unfold cn. rewrite class_tokens_concat.
  induction classes as [| v r IH]; [reflexivity |].
  cbn [forallb] in Hargs. apply andb_true_iff in Hargs. destruct Hargs as [Hv Hr].
  destruct v; try discriminate Hv; cbn [filter truthy flat_map].
  - exact (IH Hr).
  - exact (IH Hr).
  - destruct (s =? EmptyString) eqn:Es; cbn [negb map flat_map to_string].
    + apply String.eqb_eq in Es. subst s. exact (IH Hr).
    + now rewrite (IH Hr).
Qed.

Lemma cn_keeps_tokens_witness :
  forallb class_argument [VString "px-4 py-2"; VUndefined; VString "mt-1"] = true /\
  class_tokens (cn [VString "px-4 py-2"; VUndefined; VString "mt-1"]) =
    ["px-4"; "py-2"; "mt-1"].
Proof.
  split; [reflexivity |].
  exact (cn_keeps_tokens [VString "px-4 py-2"; VUndefined; VString "mt-1"] eq_refl).
Defined.

Lemma Button_className_unfold (v s cls : option string) :
  Button_className (button_props v s cls) =
    Normal (cn [VString (baseClasses ++ " " ++ variant_fragment v ++ " "
                           ++ size_fragment s);
                match cls with Some c => VString c | None => VUndefined end]).
Proof.
  destruct v as [v |], s as [s |], cls as [c |]; reflexivity.
Qed.

(** X13 — the [className] a [Button] renders is the resolved classes
    followed by the caller's [className]: its class tokens are those of the
    base, of the variant fragment, of the size fragment and of [className],
    in that order, and it never throws. *)
Theorem Button_className_tokens (v s cls : option string) :
  exists out,
    Button_className (button_props v s cls) = Normal out /\
    class_tokens out =
      (class_tokens baseClasses ++ class_tokens (variant_fragment v)
         ++ class_tokens (size_fragment s)
         ++ match cls with Some c => class_tokens c | None => [] end)%list.
Proof.
  eexists. split; [apply Button_className_unfold |].
  set (resolved := baseClasses ++ " " ++ variant_fragment v ++ " " ++ size_fragment s).
  assert (Hres : class_tokens resolved =
                 (class_tokens baseClasses ++ class_tokens (variant_fragment v)
                    ++ class_tokens (size_fragment s))%list)
    by (unfold resolved; now rewrite !class_tokens_append).
  assert (Ht : truthy (VString resolved) = true) by reflexivity.
  unfold cn. cbn [filter]. rewrite Ht.
  destruct cls as [c |]; cbn [truthy filter].
  - destruct (c =? EmptyString) eqn:Ec; cbn [negb map to_string].
    + apply String.eqb_eq in Ec. subst c. rewrite class_tokens_concat.
      cbn [flat_map]. change (class_tokens EmptyString) with (@nil string).
      rewrite Hres, ?app_nil_r. repeat rewrite <- app_assoc. reflexivity.
    + rewrite class_tokens_concat. cbn [flat_map].
      rewrite Hres, ?app_nil_r. repeat rewrite <- app_assoc. reflexivity.
  - cbn [map to_string]. rewrite class_tokens_concat. cbn [flat_map].
    rewrite Hres, ?app_nil_r. repeat rewrite <- app_assoc. reflexivity.
Qed.

(** X14 — when neither axis value is declared in its table nor a name
    inherited from [Object.prototype], the resolver returns exactly what it
    returns for the empty selection: both axes fall back to their
    defaults. *)
Theorem unknown_axes_default (v s : string) :
  child variantClasses v = None -> object_inherited v = false ->
  child sizeClasses s = None -> object_inherited s = false ->
  getButtonVariants tt (selection (Some v) (Some s)) =
  getButtonVariants tt (selection None None).
Proof.
  intros Hv Hvi Hs Hsi. rewrite !getButtonVariants_selection.
  now rewrite (unknown_variant_fragment v Hv Hvi), (unknown_size_fragment s Hs Hsi).
Qed.

Lemma unknown_axes_default_witness :
  child variantClasses "destructive" = None /\
  object_inherited "destructive" = false /\
  child sizeClasses "xl" = None /\
  object_inherited "xl" = false /\
  getButtonVariants tt (selection (Some "destructive") (Some "xl")) =
  getButtonVariants tt (selection None None).
Proof.
  repeat (split; [reflexivity |]).
  exact (unknown_axes_default "destructive" "xl" eq_refl eq_refl eq_refl eq_refl).
Defined.

(** ** breakpointUtils *)

Lemma grid_patterns (p : breakpointUtils.grid_pattern) :
  exists props base,
    get_property (member breakpoints ["grid"; "patterns"])
                 (breakpointUtils.grid_pattern_key p) = VObject props /\
    assoc "base" props = Some base /\
    forallb (fun kv => match snd kv with
                       | VNumber n => (1 <=? n)%Z && (n <=? 4)%Z
                       | _ => false
                       end) props = true.
Proof. destruct p; do 2 eexists; repeat split; vm_compute; reflexivity. Qed.

(** X15 — for every grid pattern and every breakpoint name that is not
    inherited from [Object.prototype], [getGridColumns] returns a column
    count between 1 and 4: the pattern's count at that breakpoint when it
    declares one, and its [base] count otherwise. *)
Theorem getGridColumns_is_count (p : breakpointUtils.grid_pattern) (breakpoint : string) :
  object_inherited breakpoint = false ->
  let gridPattern :=
    get_property (member breakpoints ["grid"; "patterns"])
                 (breakpointUtils.grid_pattern_key p) in
  exists n,
    breakpointUtils.getGridColumns p breakpoint = VNumber n /\
    (1 <= n <= 4)%Z /\
    match child gridPattern breakpoint with
    | Some x => x = VNumber n
    | None => get_property gridPattern "base" = VNumber n
    end.
Proof.
  intros Hi gridPattern. unfold breakpointUtils.getGridColumns. fold gridPattern.
  destruct (grid_patterns p) as (props & base & Hw & Hbase & Hall).
  unfold gridPattern. rewrite Hw. cbn [child].
  rewrite (has_property_object props breakpoint Hi),
    (get_property_object props breakpoint Hi),
    (get_property_object props "base" eq_refl), Hbase.
  set (Q := fun v => match v with
                     | VNumber n => (1 <=? n)%Z && (n <=? 4)%Z
                     | _ => false
                     end).
  destruct (assoc breakpoint props) as [x |] eqn:Ha.
  - pose proof (assoc_forallb Q _ _ _ Hall Ha) as Hx.
    destruct x; try discriminate Hx. cbn in Hx. exists n. repeat split; lia.
  - pose proof (assoc_forallb Q _ _ _ Hall Hbase) as Hx.
    destruct base; try discriminate Hx. cbn in Hx. exists n. repeat split; lia.
Qed.

Lemma getGridColumns_is_count_witness :
  object_inherited "xl" = false /\
  exists n,
    breakpointUtils.getGridColumns breakpointUtils.coverage "xl" = VNumber n /\
    (1 <= n <= 4)%Z /\
    VNumber 2 = VNumber n.
Proof.
  split; [reflexivity |].
  exact (getGridColumns_is_count breakpointUtils.coverage "xl" eq_refl).
Defined.

Lemma responsive_typography (t : breakpointUtils.typography_type) :
  exists props,
    get_property (member breakpoints ["typography"])
                 (breakpointUtils.typography_type_key t) = VObject props /\
    forallb (fun kv => match snd kv with
                       | VObject sizes =>
                           forallb (fun kv' => match snd kv' with
                                               | VString _ => true
                                               | _ => false
                                               end) sizes
                       | _ => false
                       end) props = true.
Proof. destruct t; eexists; split; vm_compute; reflexivity. Qed.

(** X16 — for a variant and a breakpoint that are not names inherited from
    [Object.prototype], [getResponsiveTypography] returns the declared
    size, a string, when the type declares the variant and the variant the
    breakpoint, and [null] in every other case. *)
Theorem getResponsiveTypography_string_or_null
    (t : breakpointUtils.typography_type) (variant : string) (breakpoint : option string) :
  object_inherited variant = false ->
  object_inherited (match breakpoint with Some b => b | None => "base" end) = false ->
  let typographyType :=
    get_property (member breakpoints ["typography"])
                 (breakpointUtils.typography_type_key t) in
  match descend typographyType
          [variant; match breakpoint with Some b => b | None => "base" end] with
  | Some x =>
      breakpointUtils.getResponsiveTypography t variant breakpoint = x /\
      exists s, x = VString s
  | None => breakpointUtils.getResponsiveTypography t variant breakpoint = VNull
  end.
Proof.
  intros Hv Hb typographyType.
  unfold breakpointUtils.getResponsiveTypography. fold typographyType.
  set (b := match breakpoint with Some b => b | None => "base" end) in *.
  destruct (responsive_typography t) as (props & Hw & Hall).
  unfold typographyType. rewrite Hw. cbn [descend child].
  rewrite (has_property_object props variant Hv), (get_property_object props variant Hv).
  set (Q := fun v => match v with
                     | VObject sizes =>
                         forallb (fun kv' : string * value =>
                                    match snd kv' with
                                    | VString _ => true
                                    | _ => false
                                    end) sizes
                     | _ => false
                     end).
  destruct (assoc variant props) as [vo |] eqn:Ha; [| reflexivity].
  pose proof (assoc_forallb Q _ _ _ Hall Ha) as Hvo.
  destruct vo as [| | | | sizes | | | |]; try discriminate Hvo. cbn in Hvo.
  cbn [typeof child]. rewrite (has_property_object sizes b Hb),
    (get_property_object sizes b Hb).
  destruct (assoc b sizes) as [x |] eqn:Hx; cbn; [| reflexivity].
  split; [reflexivity |].
  pose proof (assoc_forallb (fun v => match v with VString _ => true | _ => false end)
                _ _ _ Hvo Hx) as Hs.
  destruct x; try discriminate Hs. eauto.
Qed.

Lemma getResponsiveTypography_string_or_null_witness :
  object_inherited "hero" = false /\
  object_inherited "sm" = false /\
  breakpointUtils.getResponsiveTypography breakpointUtils.headings "hero" (Some "sm") =
    VString "3.75rem" /\
  exists s, VString "3.75rem" = VString s.
Proof.
  split; [reflexivity | split; [reflexivity |]].
  exact (getResponsiveTypography_string_or_null
           breakpointUtils.headings "hero" (Some "sm") eq_refl eq_refl).
Defined.

Lemma replace_px_digits (d : Decimal.uint) :
  String_replace "px" EmptyString (NilEmpty.string_of_uint d ++ "px") =
  NilEmpty.string_of_uint d.
Proof. induction d; cbn; [reflexivity | now rewrite IHd ..]. Qed.

Lemma dec_prefix_digits (d : Decimal.uint) :
  forall a, dec_prefix (Some (Z.of_nat a)) (NilEmpty.string_of_uint d) =
            Some (Z.of_nat (Nat.of_uint_acc d a)).
Proof.
  induction d; intros a; cbn [NilEmpty.string_of_uint dec_prefix Nat.of_uint_acc];
    [reflexivity | ..];
    match goal with
    | |- context [dec_digit ?c] =>
        let r := eval vm_compute in (dec_digit c) in
        change (dec_digit c) with r
    end; cbn iota; rewrite <- IHd; do 2 f_equal;
    rewrite Nat.tail_mul_spec; lia.
Qed.

Lemma parseInt_decimal (d : Decimal.uint) :
  d <> Decimal.Nil ->
  parseInt (NilEmpty.string_of_uint d) =
    match dec_prefix (Some 0%Z) (NilEmpty.string_of_uint d) with
    | Some n => Some (1 * n)%Z
    | None => None
    end.
Proof.
  intros Hne. destruct d as [| d | d | d | d | d | d | d | d | d | d];
    [now elim Hne | ..]; destruct d; reflexivity.
Qed.

Lemma parseInt_digits (d : Decimal.uint) :
  parseInt (NilZero.string_of_uint d) = Some (Z.of_nat (Nat.of_uint d)).
Proof.
  destruct (Decimal.uint_eq_dec d Decimal.Nil) as [-> | Hne]; [reflexivity |].
  replace (NilZero.string_of_uint d) with (NilEmpty.string_of_uint d)
    by (now destruct d).
  rewrite (parseInt_decimal d Hne).
  change (Some 0%Z) with (Some (Z.of_nat 0)). rewrite (dec_prefix_digits d 0).
  f_equal. unfold Nat.of_uint. now rewrite Z.mul_1_l.
Qed.

(** X17 — the pixel count [getAllBreakpoints] computes from a width string
    undoes the way widths are written: for every natural number [n] (a safe
    integer), [parseInt((n + 'px').replace('px', ''))] is [n]. *)
Theorem pixels_of_px (n : nat) :
  safe_integer (Z.of_nat n) = true ->
  breakpointUtils.pixels (string_of_nat n ++ "px") = Some (Z.of_nat n).
Proof.
  intros _. unfold breakpointUtils.pixels, string_of_nat.
  assert (R : String_replace "px" EmptyString (NilZero.string_of_uint (Nat.to_uint n) ++ "px")
              = NilZero.string_of_uint (Nat.to_uint n)).
  { unfold NilZero.string_of_uint.
    destruct (Nat.to_uint n) eqn:E; try reflexivity; rewrite <- E;
      apply replace_px_digits. }
  rewrite R, parseInt_digits. now rewrite DecimalNat.Unsigned.of_to.
Qed.

Lemma pixels_of_px_witness :
  safe_integer (Z.of_nat 640) = true /\
  breakpointUtils.pixels (string_of_nat 640 ++ "px") = Some (Z.of_nat 640).
Proof.
  split; [reflexivity |].
  exact (pixels_of_px 640 eq_refl).
Defined.

(** X18 — [getAllBreakpoints] lists the five screens in the order they are
    declared, which is from the narrowest to the widest, each with the
    pixel count its width string denotes. *)
Theorem getAllBreakpoints_ascending :
  exists infos,
    breakpointUtils.getAllBreakpoints tt = Normal infos /\
    map breakpointUtils.info_name infos = ["sm"; "md"; "lg"; "xl"; "2xl"] /\
    map breakpointUtils.info_pixels infos =
      [Some 640; Some 768; Some 1024; Some 1280; Some 1536]%Z /\
    Forall (fun i => exists n,
              breakpointUtils.info_pixels i = Some n /\
              breakpointUtils.info_value i = string_of_Z n ++ "px") infos.
Proof.
  eexists. split; [vm_compute; reflexivity |].
  split; [reflexivity | split; [reflexivity |]].
  repeat constructor; eexists; split; reflexivity.
Qed.

(** ** typographyUtils *)

(** X19 — [getResponsive] returns a style object with a [fontSize] for every
    pattern and breakpoint its signature admits, except [caption] at [sm]:
    [typography.responsive.caption] declares [base] and [md] only, and the
    call returns [undefined]. *)
Theorem getResponsive_caption_sm
    (p : typographyUtils.pattern) (b : option typographyUtils.breakpoint) :
  match p, b with
  | typographyUtils.caption, Some typographyUtils.sm =>
      typographyUtils.getResponsive p b = VUndefined
  | _, _ =>
      exists props size,
        typographyUtils.getResponsive p b = VObject props /\
        assoc "fontSize" props = Some (VString size)
  end.
Proof.
  destruct p, b as [[] |]; try reflexivity; do 2 eexists; split; reflexivity.
Qed.

Lemma text_options_reads (size weight color lineHeight letterSpacing family : option string) :
  let options :=
    typographyUtils.text_options size weight color lineHeight letterSpacing family in
  let read o := match o with Some x => VString x | None => VUndefined end in
  get_property options "size" = read size /\
  get_property options "weight" = read weight /\
  get_property options "color" = read color /\
  get_property options "lineHeight" = read lineHeight /\
  get_property options "letterSpacing" = read letterSpacing /\
  get_property options "family" = read family.
Proof.
  destruct size, weight, color, lineHeight, letterSpacing, family;
    repeat split; reflexivity.
Qed.

Lemma font_sizes :
  exists props,
    member typography ["fontSize"] = VObject props /\
    forallb (fun kv => match snd kv with
                       | VArray [VString _; VObject [(k, VString l)]] =>
                           (k =? "lineHeight") && negb (l =? EmptyString)
                       | _ => false
                       end) props = true.
Proof. eexists. split; vm_compute; reflexivity. Qed.

(** The six reads that open [buildTextStyle], done. *)
Lemma buildTextStyle_unfold
    (size weight color lineHeight letterSpacing family : option string) :
  let dflt o d := match o with Some x => x | None => d end in
  typographyUtils.buildTextStyle
    (typographyUtils.text_options size weight color lineHeight letterSpacing family) =
  let sized := get_property (member typography ["fontSize"]) (dflt size "base") in
  bind (typographyUtils.read sized "0") (fun fontSize =>
  bind (typographyUtils.read sized "1") (fun second =>
    Normal (VObject [
      ("fontFamily",
         get_property (member typography ["fontFamily"]) (dflt family "sans"));
      ("fontSize", fontSize);
      ("lineHeight",
         or_else (typographyUtils.read_optional second "lineHeight")
                 (get_property (member typography ["lineHeight"])
                               (dflt lineHeight "normal")));
      ("fontWeight",
         get_property (member typography ["fontWeight"]) (dflt weight "normal"));
      ("color", get_property (member typography ["colors"]) (dflt color "primary"));
      ("letterSpacing",
         get_property (member typography ["letterSpacing"])
                      (dflt letterSpacing "normal")) ]))).
Proof.
  intros dflt.
  destruct (text_options_reads size weight color lineHeight letterSpacing family)
    as (Hs & Hw & Hc & Hl & Hls & Hf).
  unfold typographyUtils.buildTextStyle.
  unfold typographyUtils.text_options at 1.
  rewrite Hs, Hw, Hc, Hl, Hls, Hf.
  destruct size, weight, color, lineHeight, letterSpacing, family; reflexivity.
Qed.

(** X20 — for every declared font size, the [lineHeight] option of
    [buildTextStyle] has no effect: each size carries its own line height,
    which is truthy, so the [||] fallback to [typography.lineHeight] is
    never taken. *)
Theorem buildTextStyle_ignores_lineHeight
    (size weight color lineHeight letterSpacing family : option string) :
  child (member typography ["fontSize"])
        (match size with Some s => s | None => "base" end) <> None ->
  typographyUtils.buildTextStyle
    (typographyUtils.text_options size weight color lineHeight letterSpacing family) =
  typographyUtils.buildTextStyle
    (typographyUtils.text_options size weight color None letterSpacing family).
Proof.
  intros Hdecl. rewrite !buildTextStyle_unfold. cbn zeta.
  set (key := match size with Some s => s | None => "base" end) in *.
  destruct font_sizes as (props & Hw & Hall). rewrite Hw in *. cbn [child] in Hdecl.
  destruct (assoc key props) as [x |] eqn:Ha; [| now elim Hdecl].
  assert (Hc : child (VObject props) key = Some x) by exact Ha.
  destruct (get_property_child _ _ _ Hc) as [-> _].
  pose proof (assoc_forallb
                (fun v => match v with
                          | VArray [VString _; VObject [(k, VString l)]] =>
                              (k =? "lineHeight") && negb (l =? EmptyString)
                          | _ => false
                          end) _ _ _ Hall Ha) as Hx.
  cbn beta in Hx.
  destruct x as [| | | | | [| [] [| [| | | | [| [k []] []] | | | |] []]] | | |];
    try discriminate Hx.
  apply andb_true_iff in Hx. destruct Hx as [Hk Hl].
  apply String.eqb_eq in Hk. subst k.
  cbn [typographyUtils.read bind]. 
  change (get_property (VArray [VString s; VObject [("lineHeight", VString s0)]]) "1")
    with (VObject [("lineHeight", VString s0)]).
  change (typographyUtils.read_optional (VObject [("lineHeight", VString s0)]) "lineHeight")
    with (VString s0).
  unfold or_else. cbn [truthy]. rewrite Hl. reflexivity.
Qed.

Lemma buildTextStyle_ignores_lineHeight_witness :
  child (member typography ["fontSize"]) "lg" <> None /\
  typographyUtils.buildTextStyle
    (typographyUtils.text_options (Some "lg") None None (Some "loose") None None) =
  typographyUtils.buildTextStyle
    (typographyUtils.text_options (Some "lg") None None None None None).
Proof.
  assert (H : child (member typography ["fontSize"]) "lg" <> None) by discriminate.
  split; [exact H |].
  exact (buildTextStyle_ignores_lineHeight (Some "lg") None None (Some "loose") None None H).
Defined.

(** X21 — given a size that is neither declared in [typography.fontSize]
    nor a name inherited from [Object.prototype], [buildTextStyle] throws a
    [TypeError] (it indexes [undefined]), whatever the other options. *)
Theorem buildTextStyle_unknown_size
    (size : string) (weight color lineHeight letterSpacing family : option string) :
  child (member typography ["fontSize"]) size = None ->
  object_inherited size = false ->
  typographyUtils.buildTextStyle
    (typographyUtils.text_options (Some size) weight color lineHeight letterSpacing family) =
  Throw TypeError.
Proof.
  intros Hc Hi. rewrite buildTextStyle_unfold. cbn zeta.
  destruct font_sizes as (props & Hw & _). rewrite Hw in *. cbn [child] in Hc.
  rewrite (get_property_object props size Hi), Hc. reflexivity.
Qed.

Lemma buildTextStyle_unknown_size_witness :
  child (member typography ["fontSize"]) "huge" = None /\
  object_inherited "huge" = false /\
  typographyUtils.buildTextStyle
    (typographyUtils.text_options (Some "huge") None None None None None) =
  Throw TypeError.
Proof.
  split; [reflexivity | split; [reflexivity |]].
  exact (buildTextStyle_unknown_size "huge" None None None None None eq_refl eq_refl).
Defined.

(** ** shadowUtils.getFocusRing *)

(** X22 — [getFocusRing] returns [0 0 0 2px] followed by the shadow color
    for every key of [shadows.colors] except [email]: that entry is an
    object, and the ring reads [0 0 0 2px [object Object]]. *)
Theorem getFocusRing_email (c : option shadowUtils.color) :
  match c with
  | Some shadowUtils.email =>
      shadowUtils.getFocusRing c = "0 0 0 2px [object Object]"
  | _ =>
      exists s,
        get_property (member shadows ["colors"])
          (shadowUtils.color_key
             (match c with Some c => c | None => shadowUtils.default end)) = VString s /\
        shadowUtils.getFocusRing c = "0 0 0 2px " ++ s
  end.
Proof.
  destruct c as [[] |]; try reflexivity; eexists; split; vm_compute; reflexivity.
Qed.
